(** * The observation store and acquisition scorer of the TPE optimizer

    A shallow embedding of [optimizers/tpe/optimizer/models/base_tpe.py]
    (class [BaseTPE]) and [optimizers/tpe/optimizer/models/tpe.py] (class
    [TPE]).

    Conventions of the embedding:
    - a one-dimensional [np.ndarray] of floats is a [list Q]; the store
      never computes on the stored numbers, it only moves them around, so
      they are kept as exact rationals;
    - a Python [dict] with string keys is a [gmap string _], except where the
      insertion order is handed to a collaborator, where it is an
      association list;
    - a method of [self] is a computation in the monad [M], which threads the
      instance and records the exception a statement raises together with the
      instance as it has been mutated up to that statement;
    - log-likelihoods and scores are real numbers. *)

From Stdlib Require Import QArith Qround Qreals Reals.
From stdpp Require Import gmap strings list sorting.

Local Open Scope Z_scope.

(** ** Python values and exceptions *)

Inductive exn : Set :=
| ValueError
| KeyError
| IndexError
| ZeroDivisionError
| AttributeError.

Inductive res (A : Type) : Type :=
| Ok (a : A)
| Raise (e : exn).
Arguments Ok {A} a.
Arguments Raise {A} e.

(** [np.append(arr, v)] for a scalar [v]. *)
Definition np_append (arr : list Q) (v : Q) : list Q := arr ++ [v].

(** [arr.size] *)
Definition np_size (arr : list Q) : Z := Z.of_nat (length arr).

(** [arr[order]], indexing by an array of non-negative integers: every index
    has to be in range, otherwise NumPy raises [IndexError]. *)
Definition np_take (arr : list Q) (order : list nat) : option (list Q) :=
  mapM (λ i, arr !! i) order.

(** Python's normalisation of a slice bound [k] for a sequence of length
    [len]: a negative bound counts from the end, and the result is clipped to
    [0 .. len] (the upper clipping is done by [take] and [drop]). *)
Definition py_slice_bound (len : nat) (k : Z) : nat :=
  Z.to_nat (if k <? 0 then Z.of_nat len + k else k).

(** [arr[:k]] *)
Definition py_slice_to (arr : list Q) (k : Z) : list Q :=
  take (py_slice_bound (length arr) k) arr.

(** [arr[k:]] *)
Definition py_slice_from (arr : list Q) (k : Z) : list Q :=
  drop (py_slice_bound (length arr) k) arr.

(** [a / b] on two Python [int]s. *)
Definition py_truediv (a b : Z) : res Q :=
  if b =? 0 then Raise ZeroDivisionError else Ok (inject_Z a / inject_Z b)%Q.

(** [int(np.ceil(x))] *)
Definition py_int_ceil (x : Q) : Z := Qceiling x.

(** An insertion-ordered [dict] that is handed to a collaborator. *)
Fixpoint dict_set {V : Type} (k : string) (v : V) (d : list (string * V))
  : list (string * V) :=
  match d with
  | [] => [(k, v)]
  | (k', v') :: d' =>
      if decide (k = k') then (k, v) :: d' else (k', v') :: dict_set k v d'
  end.

Fixpoint dict_get {V : Type} (k : string) (d : list (string * V)) : option V :=
  match d with
  | [] => None
  | (k', v') :: d' => if decide (k = k') then Some v' else dict_get k d'
  end.

(** Element-wise binary operation on two arrays with NumPy's broadcasting
    for one dimension. *)
Definition np_broadcast2 {A : Type} (f : A → A → A) (xs ys : list A)
  : res (list A) :=
  if decide (length xs = length ys) then Ok (zip_with f xs ys)
  else match xs, ys with
       | [x], _ => Ok (f x <$> ys)
       | _, [y] => Ok ((λ x, f x y) <$> xs)
       | _, _ => Raise ValueError
       end.

(** ** The search space (ConfigSpace) *)

Inductive hp_domain : Type :=
| Interval (lower upper : Q)
| Sequence (items : list Q)
| Choices (n_choices : nat).

(** A hyperparameter object: the name of its class and its domain. *)
Record hyperparameter : Type := Hyperparameter {
  class_name : string;
  domain : hp_domain
}.

(** [config_space._hyperparameters], an ordered dict. *)
Definition ConfigurationSpace : Type := list (string * hyperparameter).

(** ** What the code imports *)

(** [optimizers.tpe.utils.constants.config2type]: a table from the class name
    of a hyperparameter to the type of its values. The module is not part of
    the two files modelled here, so the table is a parameter. *)
Class Constants : Type := {
  dtype : Type;
  config2type : string → option dtype
}.

(** The package [parzen_estimator]: a density model is opaque to the
    optimizer, so it is represented by the call that builds it. *)
Inductive ParzenEstimatorType `{Constants} : Type :=
| build_categorical_parzen_estimator
    (vals : list Q) (config : hyperparameter) (top : Q)
| build_numerical_parzen_estimator
    (vals : list Q) (config : hyperparameter) (dtype_ : dtype)
    (is_ordinal : bool) (default_min_bandwidth_factor : Q).

Arguments build_categorical_parzen_estimator {_} vals config top.
Arguments build_numerical_parzen_estimator
  {_} vals config dtype_ is_ordinal default_min_bandwidth_factor.

Record MultiVariateParzenEstimator `{Constants} : Type := MVPE {
  parzen_estimators : list (string * ParzenEstimatorType)
}.
Arguments MVPE {_} parzen_estimators.
Arguments parzen_estimators {_} _.

(** NumPy: [np.argsort] with its default [kind], and [np.random.RandomState].
    Neither is part of the files modelled here; they are known by their
    documented behaviour, [NumPyLaws] below.

    The generator that [RandomState seed] returns is mutable; it is modelled
    by its state, of type [rng]. With [seed = None] NumPy seeds the generator
    from the operating system: that source is the [entropy] argument. *)
Class NumPy : Type := {
  argsort : list Q → list nat;
  rng : Type;
  entropy : Type;
  RandomState : option Z → entropy → rng
}.

(** What the documentation of NumPy promises.

    [argsort a] "returns the indices that would sort the array": a
    permutation of [0 .. len a - 1] along which the values ascend. The
    default [kind] is ['quicksort'], for which NumPy promises no order among
    equal values, so nothing is assumed about them.

    [RandomState seed] is determined by [seed] when [seed] is an integer. *)
Class NumPyLaws `{NumPy} : Prop := {
  argsort_perm : ∀ a, argsort a ≡ₚ seq 0 (length a);
  argsort_ascending : ∀ a i j x y vx vy,
    (i < j)%nat →
    argsort a !! i = Some x → argsort a !! j = Some y →
    a !! x = Some vx → a !! y = Some vy →
    (vx <= vy)%Q;
  RandomState_seeded : ∀ z e e',
    RandomState (Some z) e = RandomState (Some z) e'
}.

(** The two methods of [MultiVariateParzenEstimator] the optimizer calls.
    [sample] draws from the generator it is given, which is mutated in
    place: it returns the generator's next state. *)
Class ParzenEstimatorLib `{Constants, NumPy} : Type := {
  mvpe_sample : MultiVariateParzenEstimator → nat → rng →
                gmap string (list Q) * rng;
  mvpe_log_pdf : MultiVariateParzenEstimator → gmap string (list Q) → list R
}.

(** [np.logaddexp(x1, x2) = log(exp(x1) + exp(x2))] *)
Definition np_logaddexp (x1 x2 : R) : R := ln (exp x1 + exp x2).

(** ** The optimizer instance *)

Section Model.
Context `{PE : ParzenEstimatorLib}.

(** The attributes of a [TPE] instance ([self]). [_mvpe_lower], [_mvpe_upper]
    and [_order] are declared by [__init__] but not assigned: they are [None]
    here until a method assigns them, and reading one before that raises
    [AttributeError]. *)
Record TPE : Type := mkTPE {
  _rng : rng;
  _n_ei_candidates : nat;
  _config_space : ConfigurationSpace;
  _hp_names : list string;
  _objective_names : list string;
  _runtime_name : string;
  _n_lower : Z;
  _percentile : Q;
  _min_bandwidth_factor : Q;
  _top : Q;
  _minimize : gmap string bool;
  _observations : gmap string (list Q);
  _sorted_observations : gmap string (list Q);
  _is_categoricals : gmap string bool;
  _is_ordinals : gmap string bool;
  _mvpe_lower : option MultiVariateParzenEstimator;
  _mvpe_upper : option MultiVariateParzenEstimator;
  _order : option (list nat);
  _objective_name : string;
  _quantile : Q
}.

(** Assignments to the attributes that the methods mutate. *)
Definition set_rng (v : rng) (self : TPE) : TPE :=
  {| _rng := v;
     _n_ei_candidates := _n_ei_candidates self;
     _config_space := _config_space self;
     _hp_names := _hp_names self;
     _objective_names := _objective_names self;
     _runtime_name := _runtime_name self;
     _n_lower := _n_lower self;
     _percentile := _percentile self;
     _min_bandwidth_factor := _min_bandwidth_factor self;
     _top := _top self;
     _minimize := _minimize self;
     _observations := _observations self;
     _sorted_observations := _sorted_observations self;
     _is_categoricals := _is_categoricals self;
     _is_ordinals := _is_ordinals self;
     _mvpe_lower := _mvpe_lower self;
     _mvpe_upper := _mvpe_upper self;
     _order := _order self;
     _objective_name := _objective_name self;
     _quantile := _quantile self |}.

Definition set_n_lower (v : Z) (self : TPE) : TPE :=
  {| _rng := _rng self;
     _n_ei_candidates := _n_ei_candidates self;
     _config_space := _config_space self;
     _hp_names := _hp_names self;
     _objective_names := _objective_names self;
     _runtime_name := _runtime_name self;
     _n_lower := v;
     _percentile := _percentile self;
     _min_bandwidth_factor := _min_bandwidth_factor self;
     _top := _top self;
     _minimize := _minimize self;
     _observations := _observations self;
     _sorted_observations := _sorted_observations self;
     _is_categoricals := _is_categoricals self;
     _is_ordinals := _is_ordinals self;
     _mvpe_lower := _mvpe_lower self;
     _mvpe_upper := _mvpe_upper self;
     _order := _order self;
     _objective_name := _objective_name self;
     _quantile := _quantile self |}.

Definition set_percentile (v : Q) (self : TPE) : TPE :=
  {| _rng := _rng self;
     _n_ei_candidates := _n_ei_candidates self;
     _config_space := _config_space self;
     _hp_names := _hp_names self;
     _objective_names := _objective_names self;
     _runtime_name := _runtime_name self;
     _n_lower := _n_lower self;
     _percentile := v;
     _min_bandwidth_factor := _min_bandwidth_factor self;
     _top := _top self;
     _minimize := _minimize self;
     _observations := _observations self;
     _sorted_observations := _sorted_observations self;
     _is_categoricals := _is_categoricals self;
     _is_ordinals := _is_ordinals self;
     _mvpe_lower := _mvpe_lower self;
     _mvpe_upper := _mvpe_upper self;
     _order := _order self;
     _objective_name := _objective_name self;
     _quantile := _quantile self |}.

Definition set_observations (v : gmap string (list Q)) (self : TPE) : TPE :=
  {| _rng := _rng self;
     _n_ei_candidates := _n_ei_candidates self;
     _config_space := _config_space self;
     _hp_names := _hp_names self;
     _objective_names := _objective_names self;
     _runtime_name := _runtime_name self;
     _n_lower := _n_lower self;
     _percentile := _percentile self;
     _min_bandwidth_factor := _min_bandwidth_factor self;
     _top := _top self;
     _minimize := _minimize self;
     _observations := v;
     _sorted_observations := _sorted_observations self;
     _is_categoricals := _is_categoricals self;
     _is_ordinals := _is_ordinals self;
     _mvpe_lower := _mvpe_lower self;
     _mvpe_upper := _mvpe_upper self;
     _order := _order self;
     _objective_name := _objective_name self;
     _quantile := _quantile self |}.

Definition set_sorted_observations (v : gmap string (list Q)) (self : TPE) : TPE :=
  {| _rng := _rng self;
     _n_ei_candidates := _n_ei_candidates self;
     _config_space := _config_space self;
     _hp_names := _hp_names self;
     _objective_names := _objective_names self;
     _runtime_name := _runtime_name self;
     _n_lower := _n_lower self;
     _percentile := _percentile self;
     _min_bandwidth_factor := _min_bandwidth_factor self;
     _top := _top self;
     _minimize := _minimize self;
     _observations := _observations self;
     _sorted_observations := v;
     _is_categoricals := _is_categoricals self;
     _is_ordinals := _is_ordinals self;
     _mvpe_lower := _mvpe_lower self;
     _mvpe_upper := _mvpe_upper self;
     _order := _order self;
     _objective_name := _objective_name self;
     _quantile := _quantile self |}.

Definition set_mvpe_lower (v : option MultiVariateParzenEstimator) (self : TPE) : TPE :=
  {| _rng := _rng self;
     _n_ei_candidates := _n_ei_candidates self;
     _config_space := _config_space self;
     _hp_names := _hp_names self;
     _objective_names := _objective_names self;
     _runtime_name := _runtime_name self;
     _n_lower := _n_lower self;
     _percentile := _percentile self;
     _min_bandwidth_factor := _min_bandwidth_factor self;
     _top := _top self;
     _minimize := _minimize self;
     _observations := _observations self;
     _sorted_observations := _sorted_observations self;
     _is_categoricals := _is_categoricals self;
     _is_ordinals := _is_ordinals self;
     _mvpe_lower := v;
     _mvpe_upper := _mvpe_upper self;
     _order := _order self;
     _objective_name := _objective_name self;
     _quantile := _quantile self |}.

Definition set_mvpe_upper (v : option MultiVariateParzenEstimator) (self : TPE) : TPE :=
  {| _rng := _rng self;
     _n_ei_candidates := _n_ei_candidates self;
     _config_space := _config_space self;
     _hp_names := _hp_names self;
     _objective_names := _objective_names self;
     _runtime_name := _runtime_name self;
     _n_lower := _n_lower self;
     _percentile := _percentile self;
     _min_bandwidth_factor := _min_bandwidth_factor self;
     _top := _top self;
     _minimize := _minimize self;
     _observations := _observations self;
     _sorted_observations := _sorted_observations self;
     _is_categoricals := _is_categoricals self;
     _is_ordinals := _is_ordinals self;
     _mvpe_lower := _mvpe_lower self;
     _mvpe_upper := v;
     _order := _order self;
     _objective_name := _objective_name self;
     _quantile := _quantile self |}.

Definition set_order (v : option (list nat)) (self : TPE) : TPE :=
  {| _rng := _rng self;
     _n_ei_candidates := _n_ei_candidates self;
     _config_space := _config_space self;
     _hp_names := _hp_names self;
     _objective_names := _objective_names self;
     _runtime_name := _runtime_name self;
     _n_lower := _n_lower self;
     _percentile := _percentile self;
     _min_bandwidth_factor := _min_bandwidth_factor self;
     _top := _top self;
     _minimize := _minimize self;
     _observations := _observations self;
     _sorted_observations := _sorted_observations self;
     _is_categoricals := _is_categoricals self;
     _is_ordinals := _is_ordinals self;
     _mvpe_lower := _mvpe_lower self;
     _mvpe_upper := _mvpe_upper self;
     _order := v;
     _objective_name := _objective_name self;
     _quantile := _quantile self |}.

(** ** Methods as computations on the instance *)

Definition M (A : Type) : Type := TPE → res A * TPE.

#[export] Instance M_ret : MRet M := λ A a self, (Ok a, self).

#[export] Instance M_bind : MBind M := λ A B f m self,
  match m self with
  | (Ok a, self') => f a self'
  | (Raise e, self') => (Raise e, self')
  end.

(** [raise e] *)
Definition raise {A : Type} (e : exn) : M A := λ self, (Raise e, self).

(** reading [self.f] *)
Definition attr {A : Type} (f : TPE → A) : M A := λ self, (Ok (f self), self).

(** an assignment to an attribute of [self] *)
Definition assign (f : TPE → TPE) : M unit := λ self, (Ok tt, f self).

(** the outcome of an expression that does not touch [self] *)
Definition of_res {A : Type} (r : res A) : M A := λ self, (r, self).

(** a subscript [d[k]] that raises [e] when there is nothing at [k] *)
Definition getitem {A : Type} (e : exn) (o : option A) : M A :=
  match o with
  | Some a => mret a
  | None => raise e
  end.

(** [for x in xs: body] (no [break]) *)
Fixpoint for_each {A : Type} (xs : list A) (body : A → M unit) : M unit :=
  match xs with
  | [] => mret tt
  | x :: xs' => body x ;; for_each xs' body
  end.

(** a [for] loop that updates local variables [acc] *)
Fixpoint for_each_acc {A B : Type} (xs : list A) (acc : B) (body : B → A → M B)
  : M B :=
  match xs with
  | [] => mret acc
  | x :: xs' => acc' ← body acc x; for_each_acc xs' acc' body
  end.

(** [any(test(x) for x in xs)]: the generator is consumed up to the first
    true element. *)
Fixpoint py_any {A : Type} (test : A → M bool) (xs : list A) : M bool :=
  match xs with
  | [] => mret false
  | x :: xs' => b ← test x; if b : bool then mret true else py_any test xs'
  end.

(** [self._observations[name]] and [self._observations[name] = v] *)
Definition observations_get (name : string) : M (list Q) :=
  obs ← attr _observations; getitem KeyError (obs !! name).

Definition observations_set (name : string) (v : list Q) : M unit :=
  assign (λ self, set_observations (<[name := v]> (_observations self)) self).

(** [self._sorted_observations[name]] and its assignment *)
Definition sorted_observations_get (name : string) : M (list Q) :=
  obs ← attr _sorted_observations; getitem KeyError (obs !! name).

Definition sorted_observations_set (name : string) (v : list Q) : M unit :=
  assign (λ self,
    set_sorted_observations (<[name := v]> (_sorted_observations self)) self).

(** [self._config_space.get_hyperparameter(hp_name)] *)
Definition get_hyperparameter (hp_name : string) : M hyperparameter :=
  cs ← attr _config_space; getitem KeyError (dict_get hp_name cs).

(** *** [TPE.__init__], with [BaseTPE.__init__] inlined

    [objective_names] is [[objective_name]]. *)
Definition TPE_init
    (config_space : ConfigurationSpace) (n_ei_candidates : nat)
    (objective_name runtime_name : string)
    (seed : option Z) (os_entropy : entropy)
    (min_bandwidth_factor top : Q) (minimize : option (gmap string bool))
    (quantile : Q) : TPE :=
  let hp_names := config_space.*1 in
  let objective_names := [objective_name] in
  let empty_columns : gmap string (list Q) :=
    <[runtime_name := []]>
      (list_to_map ((λ name, (name, [])) <$> objective_names)
         ∪ list_to_map ((λ name, (name, [])) <$> hp_names)) in
  let class_is (cls : string) : gmap string bool :=
    list_to_map
      ((λ hp_name,
          (hp_name,
           match dict_get hp_name config_space with
           | Some config => bool_decide (class_name config = cls)
           | None => false
           end)) <$> hp_names) in
  {| _rng := RandomState seed os_entropy;
     _n_ei_candidates := n_ei_candidates;
     _config_space := config_space;
     _hp_names := hp_names;
     _objective_names := objective_names;
     _runtime_name := runtime_name;
     _n_lower := 0;
     _percentile := 0;
     _min_bandwidth_factor := min_bandwidth_factor;
     _top := top;
     _minimize :=
       list_to_map
         ((λ obj_name,
             (obj_name,
              match minimize with
              | None => true
              | Some m => default true (m !! obj_name)
              end)) <$> objective_names);
     _observations := empty_columns;
     _sorted_observations := empty_columns;
     _is_categoricals := class_is "CategoricalHyperparameter";
     _is_ordinals := class_is "OrdinalHyperparameter";
     _mvpe_lower := None;
     _mvpe_upper := None;
     _order := None;
     _objective_name := objective_name;
     _quantile := quantile |}.

(** *** [TPE._percentile_func] *)
Definition _percentile_func : M Z :=
  objective_name ← attr _objective_name;
  col ← observations_get objective_name;
  let n_observations := np_size col in
  quantile ← attr _quantile;
  mret (py_int_ceil (quantile * inject_Z n_observations)%Q).

(** *** [TPE._calculate_order]

    [results], when given, is a sequence whose first element is the dict of
    the objective values: the code reads [results[0][name]]. *)
Definition _calculate_order (results : option (list (gmap string Q)))
  : M (list nat) :=
  objective_name ← attr _objective_name;
  loss_vals ←
    match results with
    | None => observations_get objective_name
    | Some results =>
        col ← observations_get objective_name;
        results0 ← getitem IndexError (results !! 0%nat);
        v ← getitem KeyError (results0 !! objective_name);
        mret (np_append col v)
    end;
  let order := argsort loss_vals in
  assign (set_order (Some order));;
  mret order.

(** *** [BaseTPE._get_parzen_estimator] *)
Definition _get_parzen_estimator
    (lower_vals upper_vals : list Q) (hp_name : string) (is_categorical : bool)
  : M (ParzenEstimatorType * ParzenEstimatorType) :=
  config ← get_hyperparameter hp_name;
  let config_type := class_name config in
  is_ordinals ← attr _is_ordinals;
  is_ordinal ← getitem KeyError (is_ordinals !! hp_name);
  if is_categorical then
    top ← attr _top;
    let pe_lower := build_categorical_parzen_estimator lower_vals config top in
    let pe_upper := build_categorical_parzen_estimator upper_vals config top in
    mret (pe_lower, pe_upper)
  else
    dtype_ ← getitem KeyError (config2type config_type);
    min_bandwidth_factor ← attr _min_bandwidth_factor;
    let pe_lower :=
      build_numerical_parzen_estimator
        lower_vals config dtype_ is_ordinal min_bandwidth_factor in
    let pe_upper :=
      build_numerical_parzen_estimator
        upper_vals config dtype_ is_ordinal min_bandwidth_factor in
    mret (pe_lower, pe_upper).

(** *** [BaseTPE._update_parzen_estimators] *)
Definition _update_parzen_estimators : M unit :=
  n_lower ← attr _n_lower;
  hp_names ← attr _hp_names;
  '(pe_lower_dict, pe_upper_dict) ←
    for_each_acc hp_names ([], [])
      (λ '(pe_lower_dict, pe_upper_dict) hp_name,
        is_categoricals ← attr _is_categoricals;
        is_categorical ← getitem KeyError (is_categoricals !! hp_name);
        sorted_observations ← sorted_observations_get hp_name;
        let lower_vals := py_slice_to sorted_observations n_lower in
        let upper_vals := py_slice_from sorted_observations n_lower in
        '(pe_lower, pe_upper) ←
          _get_parzen_estimator lower_vals upper_vals hp_name is_categorical;
        mret (dict_set hp_name pe_lower pe_lower_dict,
              dict_set hp_name pe_upper pe_upper_dict));
  assign (set_mvpe_lower (Some (MVPE pe_lower_dict)));;
  assign (set_mvpe_upper (Some (MVPE pe_upper_dict))).

(** The two lines that set the group boundary, shared by both mutators:
    [self._n_lower = self._percentile_func() if percentile_func is None
                     else percentile_func()]
    followed by [self._percentile = self._n_lower / n_observations], where
    [n_observations] is the size of the column of [self._objective_names[0]].

    A [percentile_func] supplied by the caller is a callable without
    arguments; it is modelled as a function of the instance it can read. *)
Definition set_group_boundary (percentile_func : option (TPE → Z)) : M unit :=
  n_lower ←
    match percentile_func with
    | None => _percentile_func
    | Some f => attr f
    end;
  assign (set_n_lower n_lower);;
  objective_names ← attr _objective_names;
  objective_name0 ← getitem IndexError (objective_names !! 0%nat);
  col ← observations_get objective_name0;
  let n_observations := np_size col in
  n_lower ← attr _n_lower;
  percentile ← of_res (py_truediv n_lower n_observations);
  assign (set_percentile percentile).

(** *** [BaseTPE.apply_knowledge_augmentation] *)
Definition apply_knowledge_augmentation
    (observations : gmap string (list Q))
    (percentile_func : option (TPE → Z)) : M unit :=
  objective_names ← attr _objective_names;
  has_data ←
    py_any
      (λ objective_name,
        col ← observations_get objective_name;
        mret (negb (np_size col =? 0)))
      objective_names;
  if has_data : bool then raise ValueError
  else
    missing ←
      py_any
        (λ objective_name,
          mret (bool_decide (observations !! objective_name = None)))
        objective_names;
    if missing : bool then raise ValueError
    else
      assign (λ self,
        set_observations (observations ∪ _observations self) self);;
      order ← _calculate_order None;
      (* the dict comprehension is evaluated in full before [update] *)
      (if decide (map_Forall (λ _ vals, is_Some (np_take vals order))
                    observations)
       then
         assign (λ self,
           set_sorted_observations
             (omap (λ vals, np_take vals order) observations
                ∪ _sorted_observations self)
             self)
       else raise IndexError);;
      set_group_boundary percentile_func;;
      _update_parzen_estimators.

(** *** [BaseTPE.update_observations]

    The [else] clause of the second [for] loop runs whenever the loop ends
    without [break], that is always. *)
Definition update_observations
    (eval_config : gmap string Q) (results : list (gmap string Q))
    (runtime : Q) (percentile_func : option (TPE → Z)) : M unit :=
  order ← _calculate_order (Some results);
  objective_names ← attr _objective_names;
  for_each objective_names
    (λ objective_name,
      results0 ← getitem IndexError (results !! 0%nat);
      metric_val ← getitem KeyError (results0 !! objective_name);
      col ← observations_get objective_name;
      observations_set objective_name (np_append col metric_val);;
      col ← observations_get objective_name;
      sorted ← getitem IndexError (np_take col order);
      sorted_observations_set objective_name sorted);;
  hp_names ← attr _hp_names;
  for_each hp_names
    (λ hp_name,
      hp_val ← getitem KeyError (eval_config !! hp_name);
      col ← observations_get hp_name;
      observations_set hp_name (np_append col hp_val);;
      col ← observations_get hp_name;
      sorted ← getitem IndexError (np_take col order);
      sorted_observations_set hp_name sorted);;
  set_group_boundary percentile_func;;
  _update_parzen_estimators;;
  runtime_name ← attr _runtime_name;
  col ← observations_get runtime_name;
  observations_set runtime_name (np_append col runtime).

(** *** [BaseTPE.get_config_candidates] *)
Definition get_config_candidates : M (gmap string (list Q)) :=
  mvpe_lower ← attr _mvpe_lower;
  mvpe_lower ← getitem AttributeError mvpe_lower;
  n_samples ← attr _n_ei_candidates;
  rng_ ← attr _rng;
  let '(config_cands, rng') := mvpe_sample mvpe_lower n_samples rng_ in
  assign (set_rng rng');;
  mret config_cands.

(** *** [BaseTPE.compute_config_loglikelihoods] *)
Definition compute_config_loglikelihoods (config_cands : gmap string (list Q))
  : M (list R * list R) :=
  mvpe_lower ← attr _mvpe_lower;
  mvpe_lower ← getitem AttributeError mvpe_lower;
  let config_ll_lower := mvpe_log_pdf mvpe_lower config_cands in
  mvpe_upper ← attr _mvpe_upper;
  mvpe_upper ← getitem AttributeError mvpe_upper;
  let config_ll_upper := mvpe_log_pdf mvpe_upper config_cands in
  mret (config_ll_lower, config_ll_upper).

(** *** [BaseTPE.compute_probability_improvement] *)
Definition EPS : Q := 1 # 1000000000000.

Definition compute_probability_improvement (config_cands : gmap string (list Q))
  : M (list R) :=
  '(cll_lower, cll_upper) ← compute_config_loglikelihoods config_cands;
  percentile ← attr _percentile;
  let first_term := ln (Q2R (percentile + EPS)) in
  second_term ←
    of_res
      (np_broadcast2 Rminus
         (Rplus (ln (Q2R (1 - percentile + EPS))) <$> cll_upper) cll_lower);
  let pi := (λ x, Ropp (np_logaddexp first_term x)) <$> second_term in
  mret pi.

(** *** [BaseTPE.size] and [BaseTPE.observations] *)
Definition size : M Z :=
  objective_names ← attr _objective_names;
  objective_name0 ← getitem IndexError (objective_names !! 0%nat);
  col ← observations_get objective_name0;
  mret (np_size col).

Definition observations : M (gmap string (list Q)) :=
  n_evals ← size;
  obs ← attr _observations;
  mret ((λ vals, py_slice_from vals (- n_evals)) <$> obs).

(** *** The driver's view: a sequence of calls on one instance *)

Inductive call : Type :=
| call_seed (observations : gmap string (list Q))
    (percentile_func : option (TPE → Z))
| call_append (eval_config : gmap string Q) (results : list (gmap string Q))
    (runtime : Q) (percentile_func : option (TPE → Z))
| call_candidates
| call_score (config_cands : gmap string (list Q)).

Inductive output : Type :=
| out_none
| out_candidates (config_cands : gmap string (list Q))
| out_scores (pi : list R).

Definition perform (c : call) : M output :=
  match c with
  | call_seed observations percentile_func =>
      apply_knowledge_augmentation observations percentile_func;;
      mret out_none
  | call_append eval_config results runtime percentile_func =>
      update_observations eval_config results runtime percentile_func;;
      mret out_none
  | call_candidates =>
      config_cands ← get_config_candidates; mret (out_candidates config_cands)
  | call_score config_cands =>
      pi ← compute_probability_improvement config_cands; mret (out_scores pi)
  end.

(** The calls are made in turn on the instance as the previous call left it,
    also when that call raised; what each call returned or raised is
    recorded. *)
Fixpoint replay (calls : list call) (self : TPE) : list (res output) * TPE :=
  match calls with
  | [] => ([], self)
  | c :: calls' =>
      let '(r, self') := perform c self in
      let '(rs, self'') := replay calls' self' in
      (r :: rs, self'')
  end.

End Model.

(** * Specification

    The notions the properties are stated with. *)

Section Specification.
Context `{PE : ParzenEstimatorLib}.

(** The names of the columns of the store: the dimensions, the objectives and
    the runtime. *)
Definition columns (self : TPE) : list string :=
  _hp_names self ++ _objective_names self ++ [_runtime_name self].

(** Every column of the store holds [n] values. *)
Definition aligned (self : TPE) (n : nat) : Prop :=
  ∀ name, name ∈ columns self →
    ∃ col, _observations self !! name = Some col ∧ length col = n.

(** What [__init__] establishes about the search space and no method
    changes: the dimensions are the keys of the search space, the two flag
    tables classify every dimension by the class of its hyperparameter, and
    the constant table knows the type of every dimension that is not
    categorical. *)
Record wf_space (self : TPE) : Prop := {
  wf_hp_names : _hp_names self = (_config_space self).*1;
  wf_is_categoricals : ∀ hp_name config,
    dict_get hp_name (_config_space self) = Some config →
    _is_categoricals self !! hp_name =
      Some (bool_decide (class_name config = "CategoricalHyperparameter"));
  wf_is_ordinals : ∀ hp_name config,
    dict_get hp_name (_config_space self) = Some config →
    _is_ordinals self !! hp_name =
      Some (bool_decide (class_name config = "OrdinalHyperparameter"));
  wf_config2type : ∀ hp_name config,
    dict_get hp_name (_config_space self) = Some config →
    class_name config ≠ "CategoricalHyperparameter" →
    is_Some (config2type (class_name config))
}.

(** The invariant of an instance: the search space is well formed, the
    primary objective is the first objective, the column names are pairwise
    distinct, and both mappings have a column for every name. *)
Record wf (self : TPE) : Prop := {
  wf_wf_space : wf_space self;
  wf_objective_name :
    _objective_names self !! 0%nat = Some (_objective_name self);
  wf_columns : NoDup (columns self);
  wf_observations : ∀ name,
    name ∈ columns self → is_Some (_observations self !! name);
  wf_sorted_observations : ∀ name,
    name ∈ columns self → is_Some (_sorted_observations self !! name)
}.

(** Some objective column of the store already has data. *)
Definition has_data (self : TPE) : Prop :=
  ∃ objective_name col,
    objective_name ∈ _objective_names self ∧
    _observations self !! objective_name = Some col ∧ col ≠ [].

(** Some objective is missing from the input of a seed call. *)
Definition misses_objective (self : TPE) (observations : gmap string (list Q))
  : Prop :=
  ∃ objective_name,
    objective_name ∈ _objective_names self ∧
    observations !! objective_name = None.

(** The primary objective column of the input is empty. *)
Definition empty_history (self : TPE) (observations : gmap string (list Q))
  : Prop :=
  observations !! _objective_name self = Some [].

(** Some column of the input is shorter than its primary objective column. *)
Definition short_column (self : TPE) (observations : gmap string (list Q))
  : Prop :=
  ∃ col0 name vals,
    observations !! _objective_name self = Some col0 ∧
    observations !! name = Some vals ∧ (length vals < length col0)%nat.

(** The values of [col] ascend along [order]. *)
Definition ascending (col : list Q) (order : list nat) : Prop :=
  ∀ i j x y vx vy,
    (i < j)%nat → order !! i = Some x → order !! j = Some y →
    col !! x = Some vx → col !! y = Some vy → (vx <= vy)%Q.

(** Equal values of [col] keep their insertion order along [order]. *)
Definition stable (col : list Q) (order : list nat) : Prop :=
  ∀ i j x y vx vy,
    (i < j)%nat → order !! i = Some x → order !! j = Some y →
    col !! x = Some vx → col !! y = Some vy → (vx == vy)%Q → (x < y)%nat.

(** The ranking of the stored objective column as C3 describes it. *)
Definition ranking_is_stable : Prop :=
  ∀ (self : TPE) (col : list Q),
    _observations self !! _objective_name self = Some col →
    ∃ order self',
      _calculate_order None self = (Ok order, self') ∧
      order ≡ₚ seq 0 (length col) ∧ ascending col order ∧ stable col order.

(** C10 as it is stated: a seed call raises exactly when an objective column
    already has data or an objective is missing from the input. *)
Definition seed_raises_iff_precondition : Prop :=
  ∀ (self : TPE) (observations : gmap string (list Q))
    (percentile_func : option (TPE → Z)),
    wf self →
    ((∃ e self',
        apply_knowledge_augmentation observations percentile_func self
          = (Raise e, self')) ↔
     has_data self ∨ misses_objective self observations).

(** The score of one candidate with log-likelihoods [ll_lower] and
    [ll_upper]. *)
Definition score (percentile : Q) (ll_lower ll_upper : R) : R :=
  (- np_logaddexp (ln (Q2R (percentile + EPS)))
       (ln (Q2R (1 - percentile + EPS)) + ll_upper - ll_lower))%R.

(** An [update_observations] call that is given a value for every dimension
    and every objective of [self]. *)
Definition covering_append (self : TPE) (c : call) : Prop :=
  match c with
  | call_append eval_config results _ _ =>
      (∀ hp_name, hp_name ∈ _hp_names self →
         is_Some (eval_config !! hp_name)) ∧
      ∃ results0, results !! 0%nat = Some results0 ∧
        ∀ objective_name, objective_name ∈ _objective_names self →
          is_Some (results0 !! objective_name)
  | _ => False
  end.

(** ** Auxiliary notions of the proofs *)

Definition with_columns (obs sorted : gmap string (list Q)) (self : TPE) : TPE :=
  set_sorted_observations sorted (set_observations obs self).

(** The cut point the two mutators compute for a primary objective column
    [col]. *)
Definition n_lower_of (percentile_func : option (TPE → Z)) (self : TPE)
    (col : list Q) : Z :=
  match percentile_func with
  | None => py_int_ceil (_quantile self * inject_Z (np_size col))%Q
  | Some f => f self
  end.

(** The estimator that is built for a dimension with hyperparameter [config]
    from the values [vals] of one group. *)
Definition build_for (self : TPE) (config : hyperparameter) (vals : list Q)
  : option ParzenEstimatorType :=
  if bool_decide (class_name config = "CategoricalHyperparameter") then
    Some (build_categorical_parzen_estimator vals config (_top self))
  else
    dtype_ ← config2type (class_name config);
    Some (build_numerical_parzen_estimator vals config dtype_
            (bool_decide (class_name config = "OrdinalHyperparameter"))
            (_min_bandwidth_factor self)).

(** The columns after the two loops of [update_observations]: every objective
    and every dimension has its new value at the end, its sorted view is the
    new column indexed by [order], and no other column has changed. *)
Record appended (self : TPE) (eval_config results0 : gmap string Q)
    (order : list nat) (obs' sorted' : gmap string (list Q)) : Prop := {
  appended_objective : ∀ name v col,
    name ∈ _objective_names self → results0 !! name = Some v →
    _observations self !! name = Some col →
    obs' !! name = Some (np_append col v) ∧
    sorted' !! name = np_take (np_append col v) order;
  appended_hp : ∀ name v col,
    name ∈ _hp_names self → eval_config !! name = Some v →
    _observations self !! name = Some col →
    obs' !! name = Some (np_append col v) ∧
    sorted' !! name = np_take (np_append col v) order;
  appended_other : ∀ name,
    name ∉ _hp_names self → name ∉ _objective_names self →
    obs' !! name = _observations self !! name ∧
    sorted' !! name = _sorted_observations self !! name
}.

Definition has_data_b (self : TPE) : bool :=
  existsb
    (λ name, match _observations self !! name with
             | Some col => negb (np_size col =? 0)
             | None => false
             end)
    (_objective_names self).

Definition misses_objective_b (self : TPE) (observations : gmap string (list Q))
  : bool :=
  existsb (λ name, bool_decide (observations !! name = None))
    (_objective_names self).

(** The instance after the store has been overwritten with the input and
    ranked, and after the sorted view has been refreshed. *)
Definition seed_stored (observations : gmap string (list Q)) (col0 : list Q)
    (self : TPE) : TPE :=
  set_order (Some (argsort col0))
    (set_observations (observations ∪ _observations self) self).

Definition seed_ranked (observations : gmap string (list Q)) (col0 : list Q)
    (self : TPE) : TPE :=
  set_sorted_observations
    (omap (λ vals, np_take vals (argsort col0)) observations
       ∪ _sorted_observations self)
    (seed_stored observations col0 self).

(** Every column of the input can be indexed by the ranking of [col0]. *)
Definition rankable (observations : gmap string (list Q)) (col0 : list Q)
  : Prop :=
  map_Forall (λ _ vals, is_Some (np_take vals (argsort col0))) observations.

End Specification.

(** ** Concrete collaborators

    Two sorting routines that meet the contract of [np.argsort]: both rank by
    value, one keeps equal values in insertion order and the other reverses
    them. They are used to run the model on concrete inputs. *)

Definition rank_leb (ties_reversed : bool) (p q : nat * Q) : bool :=
  match (p.2 ?= q.2)%Q with
  | Lt => true
  | Gt => false
  | Eq => if ties_reversed then (q.1 <=? p.1)%nat else (p.1 <=? q.1)%nat
  end.

Definition rank_le (ties_reversed : bool) : relation (nat * Q) :=
  λ p q, rank_leb ties_reversed p q = true.

#[export] Instance rank_le_dec ties_reversed p q :
  Decision (rank_le ties_reversed p q) :=
  decide (rank_leb ties_reversed p q = true).

Definition argsort_by (ties_reversed : bool) (a : list Q) : list nat :=
  (merge_sort (rank_le ties_reversed) (zip (seq 0 (length a)) a)).*1.

Definition numpy_with (ties_reversed : bool) : NumPy :=
  {| argsort := argsort_by ties_reversed;
     rng := Z;
     entropy := Z;
     RandomState := λ seed os_entropy, default os_entropy seed |}.

Definition example_constants : Constants :=
  {| dtype := string;
     config2type := λ cls,
       if decide (cls = "UniformFloatHyperparameter") then Some "float"
       else if decide (cls = "UniformIntegerHyperparameter") then Some "int"
       else if decide (cls = "OrdinalHyperparameter") then Some "float"
       else None |}.

Definition example_sample (mvpe : @MultiVariateParzenEstimator example_constants)
    (n : nat) (r : Z) : gmap string (list Q) * Z :=
  (list_to_map
     ((λ entry : string * ParzenEstimatorType,
         (entry.1, replicate n (inject_Z r)))
        <$> parzen_estimators mvpe),
   r + 1).

Definition example_log_pdf (mvpe : @MultiVariateParzenEstimator example_constants)
    (config_cands : gmap string (list Q)) : list R :=
  (λ _, 0%R) <$> default [] (config_cands !! "x").

Definition example_parzen (ties_reversed : bool)
  : @ParzenEstimatorLib example_constants (numpy_with ties_reversed) :=
  @Build_ParzenEstimatorLib example_constants (numpy_with ties_reversed)
    example_sample example_log_pdf.

Definition example_space : ConfigurationSpace :=
  [("x", Hyperparameter "UniformFloatHyperparameter" (Interval 0 1));
   ("c", Hyperparameter "CategoricalHyperparameter" (Choices 3))].

Definition example_tpe (ties_reversed : bool) (quantile : Q)
  : @TPE example_constants (numpy_with ties_reversed) :=
  @TPE_init example_constants (numpy_with ties_reversed)
    example_space 24 "loss" "runtime" (Some 7) 0
    (1 # 100) (8 # 10) None quantile.

Definition example_config : gmap string Q := {[ "x" := 1 # 2; "c" := 1%Q ]}.

Definition example_results (loss : Q) : list (gmap string Q) :=
  [ {[ "loss" := loss ]} ].

(** * Properties *)

Section Properties.
Context `{PE : ParzenEstimatorLib} {laws : NumPyLaws}.

Lemma bind_Ok {A B : Type} (m : M A) (f : A → M B) self a self' :
  m self = (Ok a, self') → (m ≫= f) self = f a self'.
Proof. intros Hm. unfold mbind, M_bind. by rewrite Hm. Qed.

Lemma bind_Raise {A B : Type} (m : M A) (f : A → M B) self e self' :
  m self = (Raise e, self') → (m ≫= f) self = (Raise e, self').
Proof. intros Hm. unfold mbind, M_bind. by rewrite Hm. Qed.

Lemma ret_bind {A B : Type} (a : A) (f : A → M B) self :
  (mret a ≫= f) self = f a self.
Proof. reflexivity. Qed.

Lemma attr_bind {A B : Type} (g : TPE → A) (f : A → M B) self :
  (attr g ≫= f) self = f (g self) self.
Proof. reflexivity. Qed.

Lemma assign_bind {B : Type} (g : TPE → TPE) (f : unit → M B) self :
  (assign g ≫= f) self = f tt (g self).
Proof. reflexivity. Qed.

Lemma raise_bind {A B : Type} (e : exn) (f : A → M B) self :
  (raise e ≫= f) self = (Raise e, self).
Proof. reflexivity. Qed.

Lemma getitem_bind {A B : Type} (e : exn) (a : A) (f : A → M B) self :
  (getitem e (Some a) ≫= f) self = f a self.
Proof. reflexivity. Qed.

Lemma of_res_bind {A B : Type} (a : A) (f : A → M B) self :
  (of_res (Ok a) ≫= f) self = f a self.
Proof. reflexivity. Qed.

Lemma observations_get_bind {B : Type} name col (f : list Q → M B) self :
  _observations self !! name = Some col →
  (observations_get name ≫= f) self = f col self.
Proof.
  intros Hcol. unfold observations_get.
  apply bind_Ok. rewrite attr_bind, Hcol. done.
Qed.

Lemma sorted_observations_get_bind {B : Type} name col (f : list Q → M B) self :
  _sorted_observations self !! name = Some col →
  (sorted_observations_get name ≫= f) self = f col self.
Proof.
  intros Hcol. unfold sorted_observations_get.
  apply bind_Ok. rewrite attr_bind, Hcol. done.
Qed.

Ltac mstep :=
  repeat first
    [ rewrite ret_bind | rewrite attr_bind | rewrite assign_bind
    | rewrite getitem_bind | rewrite of_res_bind ].

(** *** Arrays and ordered dicts *)

Lemma np_take_Some arr order :
  order ≡ₚ seq 0 (length arr) →
  ∃ sorted, np_take arr order = Some sorted ∧
    length sorted = length arr ∧
    ∀ i x, order !! i = Some x → sorted !! i = arr !! x.
Proof.
  intros Hperm. unfold np_take.
  destruct (mapM_is_Some_2 (λ i, arr !! i) order) as [sorted Hsorted].
  { apply Forall_forall. intros x Hx. simpl.
    rewrite Hperm in Hx. apply elem_of_seq in Hx.
    apply lookup_lt_is_Some. lia. }
  exists sorted. split; [done|].
  apply mapM_Some_1 in Hsorted. split.
  - rewrite <- (Forall2_length _ _ _ Hsorted).
    rewrite (Permutation_length Hperm). by rewrite length_seq.
  - intros i x Hi.
    destruct (Forall2_lookup_l _ _ _ _ _ Hsorted Hi) as (y & Hy & Hxy).
    by rewrite Hy, Hxy.
Qed.

Lemma dict_get_is_Some {V : Type} (k : string) (d : list (string * V)) :
  k ∈ d.*1 → is_Some (dict_get k d).
Proof.
  induction d as [|[k' v'] d IH]; simpl.
  - by intros ?%elem_of_nil.
  - intros Hk. destruct (decide (k = k')); [eauto|].
    apply elem_of_cons in Hk as [?|?]; [done|]. by apply IH.
Qed.

Lemma dict_get_Some_elem_of {V : Type} (k : string) (v : V) d :
  dict_get k d = Some v → (k, v) ∈ d.
Proof.
  induction d as [|[k' v'] d IH]; simpl; [done|].
  destruct (decide (k = k')) as [->|].
  - intros [= ->]. apply elem_of_cons. by left.
  - intros Hd. apply elem_of_cons. right. by apply IH.
Qed.

Lemma dict_get_set_eq {V : Type} (k : string) (v : V) d :
  dict_get k (dict_set k v d) = Some v.
Proof.
  induction d as [|[k' v'] d IH]; simpl.
  - by rewrite decide_True.
  - destruct (decide (k = k')) as [->|Hne]; simpl.
    + by rewrite decide_True.
    + by rewrite decide_False.
Qed.

Lemma dict_get_set_ne {V : Type} (k k0 : string) (v : V) d :
  k0 ≠ k → dict_get k0 (dict_set k v d) = dict_get k0 d.
Proof.
  intros Hne. induction d as [|[k' v'] d IH]; simpl.
  - by rewrite decide_False.
  - destruct (decide (k = k')) as [->|Hne']; simpl.
    + by rewrite !decide_False.
    + destruct (decide (k0 = k')); [done|]. apply IH.
Qed.

Lemma dict_set_fresh {V : Type} (k : string) (v : V) d :
  k ∉ d.*1 → dict_set k v d = d ++ [(k, v)].
Proof.
  induction d as [|[k' v'] d IH]; simpl; [done|].
  intros Hk. apply not_elem_of_cons in Hk as [Hne Hk].
  rewrite decide_False by done. by rewrite IH.
Qed.

(** *** The order engine *)

Lemma _calculate_order_None col self :
  _observations self !! _objective_name self = Some col →
  _calculate_order None self =
    (Ok (argsort col), set_order (Some (argsort col)) self).
Proof.
  intros Hcol. unfold _calculate_order. mstep.
  rewrite (observations_get_bind _ _ _ _ Hcol). by mstep.
Qed.

Lemma _calculate_order_Some results results0 v col self :
  _observations self !! _objective_name self = Some col →
  results !! 0%nat = Some results0 →
  results0 !! _objective_name self = Some v →
  _calculate_order (Some results) self =
    (Ok (argsort (np_append col v)),
     set_order (Some (argsort (np_append col v))) self).
Proof.
  intros Hcol Hr Hv. unfold _calculate_order. mstep.
  erewrite bind_Ok; [by mstep|].
  rewrite (observations_get_bind _ _ _ _ Hcol), Hr. mstep.
  rewrite Hv. by mstep.
Qed.

(** *** The loops of [update_observations] *)

Lemma for_each_append_columns
    (body : string → M unit) (value : gmap string Q) (order : list nat) :
  (∀ name v col sorted self,
     value !! name = Some v →
     _observations self !! name = Some col →
     np_take (np_append col v) order = Some sorted →
     body name self =
       (Ok tt,
        with_columns (<[name := np_append col v]> (_observations self))
          (<[name := sorted]> (_sorted_observations self)) self)) →
  ∀ names self,
    NoDup names →
    (∀ name, name ∈ names →
       ∃ v col sorted,
         value !! name = Some v ∧
         _observations self !! name = Some col ∧
         np_take (np_append col v) order = Some sorted) →
    ∃ obs' sorted',
      for_each names body self = (Ok tt, with_columns obs' sorted' self) ∧
      (∀ name, name ∉ names →
         obs' !! name = _observations self !! name ∧
         sorted' !! name = _sorted_observations self !! name) ∧
      (∀ name v col,
         name ∈ names → value !! name = Some v →
         _observations self !! name = Some col →
         obs' !! name = Some (np_append col v) ∧
         sorted' !! name = np_take (np_append col v) order).
Proof.
  intros Hbody names. induction names as [|name names IH]; intros self Hnd Hnames.
  - exists (_observations self), (_sorted_observations self).
    split; [by destruct self|]. split; [done|].
    by intros ??? ?%elem_of_nil.
  - apply NoDup_cons in Hnd as [Hname Hnd].
    destruct (Hnames name) as (v & col & sorted & Hv & Hcol & Hsorted);
      [by left|].
    pose proof (Hbody _ _ _ _ _ Hv Hcol Hsorted) as Hstep.
    destruct (IH (with_columns (<[name := np_append col v]> (_observations self))
                    (<[name := sorted]> (_sorted_observations self)) self) Hnd)
      as (obs' & sorted' & Hloop & Hout & Hin).
    { intros name' Hname'.
      destruct (Hnames name') as (v' & col' & sorted'' & ? & ? & ?); [by right|].
      exists v', col', sorted''. split_and!; [done| |done].
      simpl. rewrite lookup_insert_ne; [done|]. by intros ->. }
    exists obs', sorted'. split_and!.
    + simpl. erewrite bind_Ok; [|exact Hstep]. exact Hloop.
    + intros name' Hname'. apply not_elem_of_cons in Hname' as [Hne Hname'].
      destruct (Hout name' Hname') as [-> ->]. simpl.
      by rewrite !lookup_insert_ne.
    + intros name' v' col' Hname' Hv' Hcol'.
      apply elem_of_cons in Hname' as [->|Hname'].
      * destruct (Hout name Hname) as [-> ->]. simpl.
        rewrite !lookup_insert_eq.
        assert (v' = v) as -> by congruence.
        assert (col' = col) as -> by congruence. done.
      * apply Hin; [done..|]. simpl. rewrite lookup_insert_ne; [done|].
        by intros ->.
Qed.

(** *** The group boundary *)

Lemma _percentile_func_Ok self col :
  _observations self !! _objective_name self = Some col →
  _percentile_func self =
    (Ok (py_int_ceil (_quantile self * inject_Z (np_size col))%Q), self).
Proof.
  intros Hcol. unfold _percentile_func. mstep.
  rewrite (observations_get_bind _ _ _ _ Hcol). by mstep.
Qed.

Lemma set_group_boundary_n_lower percentile_func self col :
  _observations self !! _objective_name self = Some col →
  ∀ {B : Type} (k : unit → M B),
    ((n_lower ←
        match percentile_func with
        | None => _percentile_func
        | Some f => attr f
        end;
      assign (set_n_lower n_lower)) ≫= k) self =
    k tt (set_n_lower (n_lower_of percentile_func self col) self).
Proof.
  intros Hcol B k. unfold n_lower_of.
  erewrite bind_Ok; [reflexivity|].
  destruct percentile_func as [f|]; [by mstep|].
  erewrite bind_Ok; [|by apply _percentile_func_Ok]. done.
Qed.

Lemma set_group_boundary_Ok percentile_func self col :
  _objective_names self !! 0%nat = Some (_objective_name self) →
  _observations self !! _objective_name self = Some col →
  col ≠ [] →
  set_group_boundary percentile_func self =
    (Ok tt,
     set_percentile
       (inject_Z (n_lower_of percentile_func self col) / inject_Z (np_size col))
       (set_n_lower (n_lower_of percentile_func self col) self)).
Proof.
  intros Hname Hcol Hne. unfold set_group_boundary.
  assert (Hassoc : ∀ {A B C : Type} (m : M A) (f : A → M B) (g : B → M C) s,
             (m ≫= (λ a, f a ≫= g)) s = ((m ≫= f) ≫= g) s).
  { intros A B C m f g s. unfold mbind, M_bind. by destruct (m s) as [[]]. }
  rewrite Hassoc, (set_group_boundary_n_lower _ _ _ Hcol). mstep.
  simpl. rewrite Hname. mstep.
  erewrite observations_get_bind; [|exact Hcol]. mstep.
  unfold py_truediv, np_size.
  destruct (Z.eqb_spec (Z.of_nat (length col)) 0) as [Hz|Hz].
  - destruct col; [done|]. simpl in Hz. lia.
  - by mstep.
Qed.

Lemma set_group_boundary_empty percentile_func self :
  _objective_names self !! 0%nat = Some (_objective_name self) →
  _observations self !! _objective_name self = Some [] →
  set_group_boundary percentile_func self =
    (Raise ZeroDivisionError,
     set_n_lower (n_lower_of percentile_func self []) self).
Proof.
  intros Hname Hcol. unfold set_group_boundary.
  assert (Hassoc : ∀ {A B C : Type} (m : M A) (f : A → M B) (g : B → M C) s,
             (m ≫= (λ a, f a ≫= g)) s = ((m ≫= f) ≫= g) s).
  { intros A B C m f g s. unfold mbind, M_bind. by destruct (m s) as [[]]. }
  rewrite Hassoc, (set_group_boundary_n_lower _ _ _ Hcol). mstep.
  simpl. rewrite Hname. mstep.
  erewrite observations_get_bind; [|exact Hcol]. by mstep.
Qed.

(** *** The density model dispatcher *)

Lemma build_for_is_Some self hp_name config vals :
  wf_space self →
  dict_get hp_name (_config_space self) = Some config →
  is_Some (build_for self config vals).
Proof.
  intros Hwf Hconfig. unfold build_for. case_bool_decide as Hcat; [eauto|].
  destruct (wf_config2type _ Hwf _ _ Hconfig Hcat) as [dtype_ ->]. simpl. eauto.
Qed.

Lemma _get_parzen_estimator_Ok lower_vals upper_vals hp_name config pl pu self :
  dict_get hp_name (_config_space self) = Some config →
  _is_ordinals self !! hp_name =
    Some (bool_decide (class_name config = "OrdinalHyperparameter")) →
  build_for self config lower_vals = Some pl →
  build_for self config upper_vals = Some pu →
  _get_parzen_estimator lower_vals upper_vals hp_name
    (bool_decide (class_name config = "CategoricalHyperparameter")) self =
    (Ok (pl, pu), self).
Proof.
  unfold build_for, _get_parzen_estimator, get_hyperparameter.
  intros Hconfig Hord Hpl Hpu.
  erewrite bind_Ok; [|by rewrite attr_bind, Hconfig].
  mstep. rewrite Hord. mstep.
  case_bool_decide.
  - mstep. injection Hpl as <-. injection Hpu as <-. done.
  - destruct (config2type (class_name config)) as [dtype_|]; [|done].
    simpl in Hpl, Hpu. mstep. injection Hpl as <-. injection Hpu as <-. done.
Qed.

Lemma _update_parzen_estimators_Ok self :
  wf_space self → NoDup (_hp_names self) →
  (∀ hp_name, hp_name ∈ _hp_names self →
     is_Some (_sorted_observations self !! hp_name)) →
  ∃ pe_lower_dict pe_upper_dict,
    _update_parzen_estimators self =
      (Ok tt,
       set_mvpe_upper (Some (MVPE pe_upper_dict))
         (set_mvpe_lower (Some (MVPE pe_lower_dict)) self)) ∧
    pe_lower_dict.*1 = _hp_names self ∧
    pe_upper_dict.*1 = _hp_names self ∧
    ∀ hp_name config sorted,
      dict_get hp_name (_config_space self) = Some config →
      _sorted_observations self !! hp_name = Some sorted →
      dict_get hp_name pe_lower_dict =
        build_for self config (py_slice_to sorted (_n_lower self)) ∧
      dict_get hp_name pe_upper_dict =
        build_for self config (py_slice_from sorted (_n_lower self)).
Proof.
  intros Hwf Hnd Hsorted. unfold _update_parzen_estimators. mstep.
  match goal with
  | |- context [for_each_acc _ _ ?b] => set (body := b)
  end.
  assert (Hloop : ∀ names lower upper,
    NoDup names →
    (∀ hp_name, hp_name ∈ names →
       hp_name ∈ _hp_names self ∧
       (hp_name ∉ lower.*1) ∧ (hp_name ∉ upper.*1)) →
    ∃ lower' upper',
      (for_each_acc names (lower, upper) body self
         = (Ok (lower', upper'), self)) ∧
      lower'.*1 = lower.*1 ++ names ∧ upper'.*1 = upper.*1 ++ names ∧
      (∀ hp_name, hp_name ∉ names →
         dict_get hp_name lower' = dict_get hp_name lower ∧
         dict_get hp_name upper' = dict_get hp_name upper) ∧
      (∀ hp_name config sorted,
         hp_name ∈ names →
         dict_get hp_name (_config_space self) = Some config →
         _sorted_observations self !! hp_name = Some sorted →
         dict_get hp_name lower' =
           build_for self config (py_slice_to sorted (_n_lower self)) ∧
         dict_get hp_name upper' =
           build_for self config (py_slice_from sorted (_n_lower self)))).
  { induction names as [|hp_name names IH]; intros lower upper Hnd' Hnames.
    - exists lower, upper. rewrite !app_nil_r. split_and!; try done.
      by intros ??? ?%elem_of_nil.
    - apply NoDup_cons in Hnd' as [Hhp Hnd'].
      destruct (Hnames hp_name) as (Hin & Hlo & Hup); [by left|].
      destruct (dict_get_is_Some hp_name (_config_space self)) as [config Hconfig].
      { by rewrite <- (wf_hp_names _ Hwf). }
      destruct (Hsorted _ Hin) as [sorted Hcol].
      destruct (build_for_is_Some self _ _
                  (py_slice_to sorted (_n_lower self)) Hwf Hconfig) as [pl Hpl].
      destruct (build_for_is_Some self _ _
                  (py_slice_from sorted (_n_lower self)) Hwf Hconfig) as [pu Hpu].
      assert (Hstep : body (lower, upper) hp_name self =
                (Ok (dict_set hp_name pl lower, dict_set hp_name pu upper), self)).
      { unfold body. mstep.
        rewrite (wf_is_categoricals _ Hwf _ _ Hconfig). mstep.
        rewrite (sorted_observations_get_bind _ _ _ _ Hcol).
        erewrite bind_Ok;
          [|apply _get_parzen_estimator_Ok;
            [done|by apply (wf_is_ordinals _ Hwf)|done..]].
        done. }
      destruct (IH (dict_set hp_name pl lower) (dict_set hp_name pu upper) Hnd')
        as (lower' & upper' & Hrun & Hkl & Hku & Hout & Hin').
      { intros hp' Hhp'. destruct (Hnames hp') as (? & ? & ?); [by right|].
        rewrite !dict_set_fresh by done. rewrite !fmap_app. simpl.
        split_and!; [done|..]; rewrite elem_of_app, list_elem_of_singleton;
          intros [?| ->]; done. }
      exists lower', upper'. split_and!.
      + simpl. erewrite bind_Ok; [|exact Hstep]. exact Hrun.
      + rewrite Hkl, dict_set_fresh, fmap_app by done. simpl.
        by rewrite <- app_assoc.
      + rewrite Hku, dict_set_fresh, fmap_app by done. simpl.
        by rewrite <- app_assoc.
      + intros hp' Hhp'. apply not_elem_of_cons in Hhp' as [Hne Hhp'].
        destruct (Hout hp' Hhp') as [-> ->].
        by rewrite !dict_get_set_ne.
      + intros hp' config' sorted' Hhp' Hconfig' Hcol'.
        apply elem_of_cons in Hhp' as [->|Hhp']; [|by apply Hin'].
        destruct (Hout hp_name Hhp) as [-> ->].
        rewrite !dict_get_set_eq.
        assert (config' = config) as -> by congruence.
        assert (sorted' = sorted) as -> by congruence. done. }
  destruct (Hloop (_hp_names self) [] [] Hnd)
    as (lower' & upper' & Hrun & Hkl & Hku & _ & Hin).
  { intros hp_name Hhp. split_and!; [done|..]; by intros ?%elem_of_nil. }
  exists lower', upper'. split_and!; try done.
  - erewrite bind_Ok; [|exact Hrun]. by mstep.
  - intros hp_name config sorted Hconfig Hcol. apply Hin; [|done..].
    rewrite (wf_hp_names _ Hwf).
    apply dict_get_Some_elem_of in Hconfig.
    apply list_elem_of_fmap. by exists (hp_name, config).
Qed.

(** *** [update_observations] as a whole *)

Lemma elem_of_columns self name :
  name ∈ columns self ↔
  name ∈ _hp_names self ∨ name ∈ _objective_names self ∨
  name = _runtime_name self.
Proof.
  unfold columns. by rewrite !elem_of_app, list_elem_of_singleton.
Qed.

Lemma wf_NoDup_parts self :
  wf self →
  NoDup (_hp_names self) ∧ NoDup (_objective_names self) ∧
  (∀ name, name ∈ _hp_names self → name ∉ _objective_names self) ∧
  (_runtime_name self ∉ _hp_names self) ∧
  (_runtime_name self ∉ _objective_names self).
Proof.
  intros Hwf. pose proof (wf_columns _ Hwf) as Hnd. unfold columns in Hnd.
  apply NoDup_app in Hnd as (Hhp & Hdisj & Hnd).
  apply NoDup_app in Hnd as (Hobj & Hdisj' & _).
  split_and!; [done..| | |].
  - intros name Hname Hobjn. apply (Hdisj name Hname).
    apply elem_of_app. by left.
  - intros Hrt. apply (Hdisj _ Hrt). apply elem_of_app. right.
    by apply list_elem_of_singleton.
  - intros Hrt. apply (Hdisj' _ Hrt). by apply list_elem_of_singleton.
Qed.

Lemma wf_objective_name_elem_of self :
  wf self → _objective_name self ∈ _objective_names self.
Proof.
  intros Hwf. apply list_elem_of_lookup. exists 0%nat.
  by apply wf_objective_name.
Qed.

Lemma update_observations_spec
    self n eval_config results results0 runtime percentile_func :
  wf self → aligned self n →
  (∀ hp_name, hp_name ∈ _hp_names self → is_Some (eval_config !! hp_name)) →
  results !! 0%nat = Some results0 →
  (∀ objective_name, objective_name ∈ _objective_names self →
     is_Some (results0 !! objective_name)) →
  ∃ col0 v0 rt obs' sorted' pe_lower_dict pe_upper_dict,
    let order := argsort (np_append col0 v0) in
    let ranked := with_columns obs' sorted' (set_order (Some order) self) in
    let n_lower := n_lower_of percentile_func ranked (np_append col0 v0) in
    let split :=
      set_percentile (inject_Z n_lower / inject_Z (np_size (np_append col0 v0)))
        (set_n_lower n_lower ranked) in
    let rebuilt :=
      set_mvpe_upper (Some (MVPE pe_upper_dict))
        (set_mvpe_lower (Some (MVPE pe_lower_dict)) split) in
    _observations self !! _objective_name self = Some col0 ∧
    length col0 = n ∧
    results0 !! _objective_name self = Some v0 ∧
    _observations self !! _runtime_name self = Some rt ∧
    appended self eval_config results0 order obs' sorted' ∧
    (∀ name, name ∈ _hp_names self ∨ name ∈ _objective_names self →
       ∃ col sorted, obs' !! name = Some col ∧ sorted' !! name = Some sorted ∧
         length col = S n ∧ length sorted = S n ∧
         ∀ i x, order !! i = Some x → sorted !! i = col !! x) ∧
    _update_parzen_estimators split = (Ok tt, rebuilt) ∧
    update_observations eval_config results runtime percentile_func self =
      (Ok tt,
       set_observations
         (<[_runtime_name self := np_append rt runtime]> obs') rebuilt).
Proof.
  intros Hwf Hal Hcfg Hr Hres.
  destruct (wf_NoDup_parts _ Hwf) as (Hnd_hp & Hnd_obj & Hdisj & Hrt_hp & Hrt_obj).
  pose proof (wf_objective_name_elem_of _ Hwf) as Hobj.
  destruct (Hal (_objective_name self)) as (col0 & Hcol0 & Hlen0).
  { apply elem_of_columns. auto. }
  destruct (Hres _ Hobj) as [v0 Hv0].
  destruct (Hal (_runtime_name self)) as (rt & Hrt & _).
  { apply elem_of_columns. auto. }
  set (order := argsort (np_append col0 v0)).
  assert (Horder : order ≡ₚ seq 0 (S n)).
  { unfold order. rewrite argsort_perm. unfold np_append.
    rewrite length_app. simpl. by replace (length col0 + 1)%nat with (S n) by lia. }
  assert (Htake : ∀ col v, length col = n →
            ∃ sorted, np_take (np_append col v) order = Some sorted ∧
              length sorted = S n ∧
              ∀ i x, order !! i = Some x → sorted !! i = np_append col v !! x).
  { intros col v Hlen.
    destruct (np_take_Some (np_append col v) order) as (sorted & ? & Hl & ?).
    - unfold np_append. rewrite length_app. simpl.
      by replace (length col + 1)%nat with (S n) by lia.
    - exists sorted. split_and!; [done| |done].
      rewrite Hl. unfold np_append. rewrite length_app. simpl. lia. }
  (* the loop over the objectives *)
  destruct (for_each_append_columns
              (λ objective_name,
                 results0 ← getitem IndexError (results !! 0%nat);
                 metric_val ← getitem KeyError (results0 !! objective_name);
                 col ← observations_get objective_name;
                 observations_set objective_name (np_append col metric_val);;
                 col ← observations_get objective_name;
                 sorted ← getitem IndexError (np_take col order);
                 sorted_observations_set objective_name sorted)
              results0 order) with
    (names := _objective_names self) (self := set_order (Some order) self)
    as (obs1 & sorted1 & Hloop1 & Hout1 & Hin1); [|done|..].
  { intros name v col sorted s Hv Hcol Hs.
    rewrite Hr. mstep. rewrite Hv. mstep.
    rewrite (observations_get_bind _ _ _ _ Hcol).
    unfold observations_set. mstep.
    erewrite observations_get_bind; [|simpl; apply lookup_insert_eq].
    rewrite Hs. by mstep. }
  { intros name Hname. destruct (Hres _ Hname) as [v Hv].
    destruct (Hal name) as (col & Hcol & Hlen); [apply elem_of_columns; auto|].
    destruct (Htake col v Hlen) as (sorted & Hs & _).
    by exists v, col, sorted. }
  (* the loop over the dimensions *)
  set (ranked1 := with_columns obs1 sorted1 (set_order (Some order) self)) in *.
  destruct (for_each_append_columns
              (λ hp_name,
                 hp_val ← getitem KeyError (eval_config !! hp_name);
                 col ← observations_get hp_name;
                 observations_set hp_name (np_append col hp_val);;
                 col ← observations_get hp_name;
                 sorted ← getitem IndexError (np_take col order);
                 sorted_observations_set hp_name sorted)
              eval_config order) with
    (names := _hp_names self) (self := ranked1)
    as (obs2 & sorted2 & Hloop2 & Hout2 & Hin2); [|done|..].
  { intros name v col sorted s Hv Hcol Hs.
    rewrite Hv. mstep.
    rewrite (observations_get_bind _ _ _ _ Hcol).
    unfold observations_set. mstep.
    erewrite observations_get_bind; [|simpl; apply lookup_insert_eq].
    rewrite Hs. by mstep. }
  { intros name Hname. destruct (Hcfg _ Hname) as [v Hv].
    destruct (Hal name) as (col & Hcol & Hlen); [apply elem_of_columns; auto|].
    destruct (Htake col v Hlen) as (sorted & Hs & _).
    exists v, col, sorted. split_and!; [done| |done].
    simpl. destruct (Hout1 name (Hdisj _ Hname)) as [-> _]. done. }
  assert (Happ : appended self eval_config results0 order obs2 sorted2).
  { split.
    - intros name v col Hname Hv Hcol.
      assert (Hnhp : name ∉ _hp_names self) by (intros ?; by eapply Hdisj).
      destruct (Hout2 name Hnhp) as [-> ->]. simpl.
      by apply Hin1.
    - intros name v col Hname Hv Hcol. apply Hin2; [done..|].
      simpl. destruct (Hout1 name (Hdisj _ Hname)) as [-> _]. done.
    - intros name Hnhp Hnobj.
      destruct (Hout2 name Hnhp) as [-> ->]. simpl. by apply Hout1. }
  assert (Hcols : ∀ name,
            name ∈ _hp_names self ∨ name ∈ _objective_names self →
            ∃ col sorted, obs2 !! name = Some col ∧ sorted2 !! name = Some sorted ∧
              length col = S n ∧ length sorted = S n ∧
              ∀ i x, order !! i = Some x → sorted !! i = col !! x).
  { intros name Hname.
    destruct (Hal name) as (col & Hcol & Hlen).
    { apply elem_of_columns. tauto. }
    assert (∃ v, obs2 !! name = Some (np_append col v) ∧
                 sorted2 !! name = np_take (np_append col v) order)
      as (v & Ho & Hs).
    { destruct Hname as [Hname|Hname].
      - destruct (Hcfg _ Hname) as [v Hv]. exists v.
        by apply (appended_hp _ _ _ _ _ _ Happ).
      - destruct (Hres _ Hname) as [v Hv]. exists v.
        by apply (appended_objective _ _ _ _ _ _ Happ). }
    destruct (Htake col v Hlen) as (sorted & Hs' & Hl & Hidx).
    exists (np_append col v), sorted. rewrite Hs, Hs'.
    split_and!; try done.
    unfold np_append. rewrite length_app. simpl. lia. }
  set (ranked := with_columns obs2 sorted2 (set_order (Some order) self)).
  assert (Hobs0 : _observations ranked !! _objective_name ranked
                  = Some (np_append col0 v0)).
  { simpl. by apply (appended_objective _ _ _ _ _ _ Happ). }
  pose proof (set_group_boundary_Ok percentile_func ranked _
                (wf_objective_name _ Hwf) Hobs0) as Hsplit.
  set (n_lower := n_lower_of percentile_func ranked (np_append col0 v0)) in *.
  set (split :=
         set_percentile (inject_Z n_lower / inject_Z (np_size (np_append col0 v0)))
           (set_n_lower n_lower ranked)) in *.
  destruct (_update_parzen_estimators_Ok split)
    as (pe_lower_dict & pe_upper_dict & Hrebuild & _).
  { destruct (wf_wf_space _ Hwf). by split. }
  { done. }
  { intros hp_name Hhp. destruct (Hcols hp_name) as (? & sorted & _ & Hs & _);
      [by left|]. simpl. rewrite Hs. eauto. }
  exists col0, v0, rt, obs2, sorted2, pe_lower_dict, pe_upper_dict.
  cbv zeta. fold order. fold ranked. fold n_lower. fold split.
  split_and!; try done.
  unfold update_observations.
  erewrite bind_Ok; [|by eapply _calculate_order_Some]. fold order.
  mstep. erewrite bind_Ok; [|exact Hloop1].
  mstep. erewrite bind_Ok; [|exact Hloop2].
  erewrite bind_Ok; [|apply Hsplit; unfold np_append; by destruct col0].
  erewrite bind_Ok; [|exact Hrebuild].
  mstep. erewrite observations_get_bind.
  - unfold observations_set, assign. reflexivity.
  - simpl. destruct (appended_other _ _ _ _ _ _ Happ (_runtime_name self))
      as [-> _]; done.
Qed.

(** *** [apply_knowledge_augmentation] *)

Lemma py_any_pure {A : Type} (test : A → M bool) (p : A → bool) xs self :
  (∀ x, x ∈ xs → test x self = (Ok (p x), self)) →
  py_any test xs self = (Ok (existsb p xs), self).
Proof.
  induction xs as [|x xs IH]; intros Htest; simpl; [done|].
  erewrite bind_Ok; [|apply Htest; by left].
  destruct (p x); simpl; [done|].
  apply IH. intros y Hy. apply Htest. by right.
Qed.

Lemma has_data_b_spec self : has_data_b self = true ↔ has_data self.
Proof.
  unfold has_data_b, has_data. rewrite existsb_exists. split.
  - intros (name & Hin & Hname). apply list_elem_of_In in Hin.
    destruct (_observations self !! name) as [col|] eqn:Hcol; [|done].
    exists name, col. split_and!; [done..|].
    intros ->. done.
  - intros (name & col & Hin & Hcol & Hne). exists name.
    split; [by apply list_elem_of_In|]. rewrite Hcol.
    destruct col; [done|]. done.
Qed.

Lemma misses_objective_b_spec self observations :
  misses_objective_b self observations = true ↔
  misses_objective self observations.
Proof.
  unfold misses_objective_b, misses_objective. rewrite existsb_exists. split.
  - intros (name & Hin & Hname). apply list_elem_of_In in Hin.
    apply bool_decide_eq_true in Hname. eauto.
  - intros (name & Hin & Hname). exists name.
    split; [by apply list_elem_of_In|]. by apply bool_decide_eq_true.
Qed.

(** The two guards at the head of [apply_knowledge_augmentation]. *)
Lemma apply_knowledge_augmentation_guards observations percentile_func self :
  wf self →
  apply_knowledge_augmentation observations percentile_func self =
    if has_data_b self || misses_objective_b self observations
    then (Raise ValueError, self)
    else
      (assign (λ self,
         set_observations (observations ∪ _observations self) self);;
       order ← _calculate_order None;
       (if decide (map_Forall (λ _ vals, is_Some (np_take vals order))
                     observations)
        then
          assign (λ self,
            set_sorted_observations
              (omap (λ vals, np_take vals order) observations
                 ∪ _sorted_observations self)
              self)
        else raise IndexError);;
       set_group_boundary percentile_func;;
       _update_parzen_estimators) self.
Proof.
  intros Hwf. unfold apply_knowledge_augmentation. mstep.
  erewrite bind_Ok.
  2:{ apply (py_any_pure _
               (λ name, match _observations self !! name with
                        | Some col => negb (np_size col =? 0)
                        | None => false
                        end)).
      intros name Hname.
      destruct (wf_observations _ Hwf name) as [col Hcol].
      { apply elem_of_columns. auto. }
      rewrite (observations_get_bind _ _ _ _ Hcol), Hcol. done. }
  fold (has_data_b self). destruct (has_data_b self); simpl; [done|].
  erewrite bind_Ok.
  2:{ apply (py_any_pure _
               (λ name, bool_decide (observations !! name = None))).
      done. }
  fold (misses_objective_b self observations).
  by destruct (misses_objective_b self observations).
Qed.

Lemma apply_knowledge_augmentation_rejects observations percentile_func self :
  wf self →
  has_data self ∨ misses_objective self observations →
  apply_knowledge_augmentation observations percentile_func self =
    (Raise ValueError, self).
Proof.
  intros Hwf Hpre. rewrite apply_knowledge_augmentation_guards by done.
  destruct Hpre as [Hd|Hm].
  - apply has_data_b_spec in Hd. by rewrite Hd.
  - apply misses_objective_b_spec in Hm. rewrite Hm.
    by rewrite orb_true_r.
Qed.

Lemma np_take_is_Some arr order :
  (∀ x, x ∈ order → (x < length arr)%nat) → is_Some (np_take arr order).
Proof.
  intros Hlt. apply mapM_is_Some_2, Forall_forall. intros x Hx. simpl.
  apply lookup_lt_is_Some. by apply Hlt.
Qed.

Lemma rankable_length observations col0 :
  (∀ name vals, observations !! name = Some vals →
     (length col0 ≤ length vals)%nat) →
  rankable observations col0.
Proof.
  intros Hlen name vals Hvals. apply np_take_is_Some. intros x Hx.
  rewrite argsort_perm in Hx. apply elem_of_seq in Hx.
  specialize (Hlen _ _ Hvals). lia.
Qed.

Lemma apply_knowledge_augmentation_outcome observations percentile_func self col0 :
  wf self → ¬ has_data self → ¬ misses_objective self observations →
  observations !! _objective_name self = Some col0 →
  let stored := seed_stored observations col0 self in
  let ranked := seed_ranked observations col0 self in
  let n_lower := n_lower_of percentile_func ranked col0 in
  let split :=
    set_percentile (inject_Z n_lower / inject_Z (np_size col0))
      (set_n_lower n_lower ranked) in
  (¬ rankable observations col0 ∧
   apply_knowledge_augmentation observations percentile_func self =
     (Raise IndexError, stored)) ∨
  (rankable observations col0 ∧ col0 = [] ∧
   apply_knowledge_augmentation observations percentile_func self =
     (Raise ZeroDivisionError, set_n_lower n_lower ranked)) ∨
  (rankable observations col0 ∧ col0 ≠ [] ∧
   ∃ pe_lower_dict pe_upper_dict,
     _update_parzen_estimators split =
       (Ok tt,
        set_mvpe_upper (Some (MVPE pe_upper_dict))
          (set_mvpe_lower (Some (MVPE pe_lower_dict)) split)) ∧
     apply_knowledge_augmentation observations percentile_func self =
       (Ok tt,
        set_mvpe_upper (Some (MVPE pe_upper_dict))
          (set_mvpe_lower (Some (MVPE pe_lower_dict)) split))).
Proof.
  intros Hwf Hnd Hnm Hcol0. cbv zeta.
  rewrite apply_knowledge_augmentation_guards by done.
  assert (has_data_b self = false) as ->.
  { destruct (has_data_b self) eqn:E; [|done].
    by apply has_data_b_spec in E. }
  assert (misses_objective_b self observations = false) as ->.
  { destruct (misses_objective_b self observations) eqn:E; [|done].
    by apply misses_objective_b_spec in E. }
  simpl. mstep.
  erewrite bind_Ok.
  2:{ apply (_calculate_order_None col0). simpl.
      by apply lookup_union_Some_l. }
  fold (seed_stored observations col0 self).
  fold (rankable observations col0).
  destruct (decide (rankable observations col0)) as [Hrank|Hrank].
  2:{ left. split; [done|]. by rewrite raise_bind. }
  right. mstep. fold (seed_ranked observations col0 self).
  assert (Hobs0 : _observations (seed_ranked observations col0 self)
                    !! _objective_name (seed_ranked observations col0 self)
                  = Some col0).
  { simpl. by apply lookup_union_Some_l. }
  destruct (decide (col0 = [])) as [->|Hne].
  - left. split_and!; [done..|].
    erewrite bind_Raise; [done|].
    apply set_group_boundary_empty; [apply Hwf|done].
  - right. split_and!; [done..|].
    pose proof (set_group_boundary_Ok percentile_func
                  (seed_ranked observations col0 self) col0
                  (wf_objective_name _ Hwf) Hobs0 Hne) as Hsplit.
    destruct (wf_NoDup_parts _ Hwf) as (Hnd_hp & _).
    match type of Hsplit with _ = (_, ?s) => set (split := s) in * end.
    destruct (_update_parzen_estimators_Ok split)
      as (pe_lower_dict & pe_upper_dict & Hrebuild & _).
    { destruct (wf_wf_space _ Hwf). by split. }
    { done. }
    { intros hp_name Hhp. simpl. apply lookup_union_is_Some. right.
      apply (wf_sorted_observations _ Hwf), elem_of_columns. auto. }
    exists pe_lower_dict, pe_upper_dict. split; [exact Hrebuild|].
    erewrite bind_Ok; [|exact Hsplit]. exact Hrebuild.
Qed.

(** *** [__init__] establishes the invariant *)

Lemma lookup_list_to_map_tabulate {V : Type} (f : string → V)
    (names : list string) (name : string) :
  (list_to_map ((λ k, (k, f k)) <$> names) : gmap string V) !! name =
    if decide (name ∈ names) then Some (f name) else None.
Proof.
  induction names as [|k names IH].
  - rewrite fmap_nil, list_to_map_nil, lookup_empty.
    by rewrite decide_False by apply not_elem_of_nil.
  - rewrite fmap_cons, list_to_map_cons.
    destruct (decide (k = name)) as [->|Hne].
    + rewrite lookup_insert_eq. rewrite decide_True; [done|by left].
    + rewrite lookup_insert_ne, IH by done.
      destruct (decide (name ∈ names)) as [Hin|Hin].
      * rewrite decide_True; [done|by right].
      * rewrite decide_False; [done|].
        intros [?|?]%elem_of_cons; [congruence|done].
Qed.

Lemma TPE_init_wf config_space n_ei_candidates objective_name runtime_name
    seed os_entropy min_bandwidth_factor top minimize quantile :
  NoDup (config_space.*1 ++ [objective_name] ++ [runtime_name]) →
  Forall (λ entry : string * hyperparameter,
            class_name entry.2 ≠ "CategoricalHyperparameter" →
            is_Some (config2type (class_name entry.2))) config_space →
  let self :=
    TPE_init config_space n_ei_candidates objective_name runtime_name
      seed os_entropy min_bandwidth_factor top minimize quantile in
  wf self ∧ aligned self 0 ∧
  ∀ name, name ∈ columns self → _sorted_observations self !! name = Some [].
Proof.
  intros Hnd Htypes self.
  assert (Hempty : ∀ name, name ∈ columns self →
            _observations self !! name = Some []).
  { intros name Hname. unfold self, TPE_init. simpl.
    destruct (decide (runtime_name = name)) as [->|Hne];
      [by rewrite lookup_insert_eq|].
    rewrite lookup_insert_ne by done.
    destruct (decide (objective_name = name)) as [->|Hne'].
    { apply lookup_union_Some_l. by rewrite lookup_insert_eq. }
    rewrite lookup_union_r.
    2:{ rewrite lookup_insert_ne by done. apply lookup_empty. }
    rewrite lookup_list_to_map_tabulate.
    rewrite decide_True; [done|].
    apply elem_of_columns in Hname as [?|[Hobj| ->]]; [done| |done].
    simpl in Hobj. apply list_elem_of_singleton in Hobj. congruence. }
  assert (Hflags : ∀ cls hp_name config,
            dict_get hp_name config_space = Some config →
            (list_to_map
               ((λ hp_name,
                   (hp_name,
                    match dict_get hp_name config_space with
                    | Some config => bool_decide (class_name config = cls)
                    | None => false
                    end)) <$> config_space.*1) : gmap string bool) !! hp_name
            = Some (bool_decide (class_name config = cls))).
  { intros cls hp_name config Hconfig.
    rewrite (lookup_list_to_map_tabulate
               (λ hp_name, match dict_get hp_name config_space with
                           | Some config => bool_decide (class_name config = cls)
                           | None => false
                           end)).
    rewrite Hconfig. rewrite decide_True; [done|].
    apply dict_get_Some_elem_of in Hconfig.
    apply list_elem_of_fmap. by exists (hp_name, config). }
  split_and!; [split; [split|..]|..]; try done.
  - intros hp_name config Hconfig. by apply Hflags.
  - intros hp_name config Hconfig. by apply Hflags.
  - intros hp_name config Hconfig Hcat.
    apply dict_get_Some_elem_of in Hconfig.
    rewrite Forall_forall in Htypes. by apply (Htypes _ Hconfig).
  - intros name Hname. rewrite (Hempty _ Hname). eauto.
  - intros name Hname. unfold self, TPE_init at 1. simpl.
    change (is_Some (_observations self !! name)).
    rewrite (Hempty _ Hname). eauto.
  - intros name Hname. exists []. split; [by apply Hempty|done].
Qed.

(** *** The invariant is kept by [update_observations] *)

Lemma update_observations_wf
    self n eval_config results results0 runtime percentile_func self' :
  wf self → aligned self n →
  (∀ hp_name, hp_name ∈ _hp_names self → is_Some (eval_config !! hp_name)) →
  results !! 0%nat = Some results0 →
  (∀ objective_name, objective_name ∈ _objective_names self →
     is_Some (results0 !! objective_name)) →
  update_observations eval_config results runtime percentile_func self
    = (Ok tt, self') →
  wf self' ∧ aligned self' (S n) ∧
  _hp_names self' = _hp_names self ∧
  _objective_names self' = _objective_names self.
Proof.
  intros Hwf Hal Hcfg Hr Hres Hrun.
  destruct (update_observations_spec self n eval_config results results0
              runtime percentile_func Hwf Hal Hcfg Hr Hres)
    as (col0 & v0 & rt & obs' & sorted' & lo & up & Hspec).
  cbv zeta in Hspec.
  destruct Hspec as (_ & _ & _ & Hrt & Happ & Hcols & _ & Hrun').
  rewrite Hrun' in Hrun. injection Hrun as <-.
  destruct (wf_NoDup_parts _ Hwf) as (_ & _ & _ & Hrt_hp & Hrt_obj).
  assert (Hlen : ∀ name, name ∈ columns self →
            ∃ col, (<[_runtime_name self := np_append rt runtime]> obs')
                     !! name = Some col ∧ length col = S n).
  { intros name Hname.
    destruct (decide (name = _runtime_name self)) as [->|Hne].
    - rewrite lookup_insert_eq. eexists. split; [done|].
      destruct (Hal (_runtime_name self)) as (rt' & Hrt' & Hl);
        [apply elem_of_columns; auto|].
      assert (rt' = rt) as -> by congruence.
      unfold np_append. rewrite length_app. simpl. lia.
    - rewrite lookup_insert_ne by done.
      apply elem_of_columns in Hname as [Hname|[Hname|Hname]]; [| |done].
      + destruct (Hcols name) as (col & _ & Hc & _ & Hl & _); eauto.
      + destruct (Hcols name) as (col & _ & Hc & _ & Hl & _); eauto. }
  split_and!; [split|..]; [| | | | | |done..].
  - destruct (wf_wf_space _ Hwf). by split.
  - apply Hwf.
  - apply Hwf.
  - intros name Hname. simpl.
    destruct (Hlen name Hname) as (col & -> & _). eauto.
  - intros name Hname. simpl.
    apply elem_of_columns in Hname. simpl in Hname.
    destruct Hname as [Hname|[Hname| ->]].
    + destruct (Hcols name) as (_ & sorted & _ & -> & _); eauto.
    + destruct (Hcols name) as (_ & sorted & _ & -> & _); eauto.
    + destruct (appended_other _ _ _ _ _ _ Happ (_runtime_name self))
        as [_ ->]; [done..|].
      apply (wf_sorted_observations _ Hwf), elem_of_columns. auto.
  - intros name Hname. simpl. by apply Hlen.
Qed.

(** *** The acquisition scorer, over the reals *)

Lemma compute_probability_improvement_Ok self mvpe_lower mvpe_upper config_cands :
  _mvpe_lower self = Some mvpe_lower →
  _mvpe_upper self = Some mvpe_upper →
  length (mvpe_log_pdf mvpe_lower config_cands)
    = length (mvpe_log_pdf mvpe_upper config_cands) →
  compute_probability_improvement config_cands self =
    (Ok (zip_with (score (_percentile self))
           (mvpe_log_pdf mvpe_lower config_cands)
           (mvpe_log_pdf mvpe_upper config_cands)),
     self).
Proof.
  intros Hlower Hupper Hlen.
  unfold compute_probability_improvement, compute_config_loglikelihoods.
  erewrite bind_Ok.
  2:{ mstep. rewrite Hlower. mstep. rewrite Hupper. by mstep. }
  cbv beta iota. mstep. unfold np_broadcast2.
  rewrite decide_True by (by rewrite length_fmap).
  mstep. unfold mret, M_ret. f_equal. f_equal.
  remember (mvpe_log_pdf mvpe_lower config_cands) as lls eqn:E1.
  remember (mvpe_log_pdf mvpe_upper config_cands) as uls eqn:E2.
  clear E1 E2. revert uls Hlen.
  induction lls as [|a lls IH]; intros [|b uls] Hlen; simpl in *; try done.
  f_equal. apply IH. lia.
Qed.

(** For a percentile in [0, 1] the score is the negative logarithm of
    [(percentile + EPS) + (1 - percentile + EPS) * exp(ll_upper - ll_lower)]. *)
Lemma score_closed_form percentile ll_lower ll_upper :
  (0 <= percentile)%Q → (percentile <= 1)%Q →
  score percentile ll_lower ll_upper =
    (- ln (Q2R (percentile + EPS)
           + Q2R (1 - percentile + EPS) * exp (ll_upper - ll_lower)))%R.
Proof.
  intros Hp0 Hp1. unfold score, np_logaddexp.
  assert (HEPS : (0 < EPS)%Q) by done.
  assert (Hp : (0 < Q2R (percentile + EPS))%R).
  { rewrite <- RMicromega.Q2R_0. apply Qlt_Rlt.
    apply Qlt_le_trans with (0 + EPS)%Q; [by rewrite Qplus_0_l|].
    by apply Qplus_le_compat; [|apply Qle_refl]. }
  assert (Hq : (0 < Q2R (1 - percentile + EPS))%R).
  { rewrite <- RMicromega.Q2R_0. apply Qlt_Rlt.
    apply Qlt_le_trans with (0 + EPS)%Q; [by rewrite Qplus_0_l|].
    apply Qplus_le_compat; [|apply Qle_refl].
    unfold Qminus. rewrite <- (Qplus_opp_r percentile).
    apply Qplus_le_compat; [done|apply Qle_refl]. }
  f_equal. f_equal.
  rewrite exp_ln by done.
  replace (ln (Q2R (1 - percentile + EPS)) + ll_upper - ll_lower)%R
    with (ln (Q2R (1 - percentile + EPS)) + (ll_upper - ll_lower))%R
    by (unfold Rminus; by rewrite Rplus_assoc).
  rewrite exp_plus, exp_ln by done. done.
Qed.

(** ** Main results *)


Lemma ceil_cut_bounds (quantile : Q) (n_observations : Z) :
  (0 <= quantile)%Q → (quantile <= 1)%Q → 0 ≤ n_observations →
  0 ≤ py_int_ceil (quantile * inject_Z n_observations)%Q ≤ n_observations.
Proof.
  intros Hq0 Hq1 Hn. unfold py_int_ceil.
  assert (Hn' : (0 <= inject_Z n_observations)%Q).
  { change 0%Q with (inject_Z 0). by rewrite <- Zle_Qle. }
  split.
  - rewrite <- (Qceiling_Z 0). apply Qceiling_resp_le.
    by apply Qmult_le_0_compat.
  - rewrite <- (Qceiling_Z n_observations) at 2. apply Qceiling_resp_le.
    rewrite <- (Qmult_1_l (inject_Z n_observations)) at 2.
    by apply Qmult_le_compat_r.
Qed.


(** C7. A rebuild of the density models splits, for every dimension, the
    sorted values of the dimension at [n_lower] and builds one estimator per
    group: from the two value arrays, the hyperparameter (its domain) and
    [top] when the dimension is categorical, and from the two value arrays,
    the hyperparameter, its value type, the ordinal flag and the minimum
    bandwidth factor otherwise. There is exactly one estimator per dimension
    and group, and an empty group is passed on as an empty array. *)
Theorem _update_parzen_estimators_dispatch self :
  wf self →
  ∃ pe_lower_dict pe_upper_dict,
    _update_parzen_estimators self =
      (Ok tt,
       set_mvpe_upper (Some (MVPE pe_upper_dict))
         (set_mvpe_lower (Some (MVPE pe_lower_dict)) self)) ∧
    pe_lower_dict.*1 = _hp_names self ∧
    pe_upper_dict.*1 = _hp_names self ∧
    ∀ hp_name config sorted,
      dict_get hp_name (_config_space self) = Some config →
      _sorted_observations self !! hp_name = Some sorted →
      let lower_vals := py_slice_to sorted (_n_lower self) in
      let upper_vals := py_slice_from sorted (_n_lower self) in
      (0 ≤ _n_lower self →
       lower_vals = take (Z.to_nat (_n_lower self)) sorted ∧
       upper_vals = drop (Z.to_nat (_n_lower self)) sorted) ∧
      (_n_lower self = 0 → lower_vals = [] ∧ upper_vals = sorted) ∧
      (class_name config = "CategoricalHyperparameter" →
       dict_get hp_name pe_lower_dict =
         Some (build_categorical_parzen_estimator lower_vals config (_top self)) ∧
       dict_get hp_name pe_upper_dict =
         Some (build_categorical_parzen_estimator upper_vals config (_top self))) ∧
      (class_name config ≠ "CategoricalHyperparameter" →
       ∃ dtype_,
         config2type (class_name config) = Some dtype_ ∧
         dict_get hp_name pe_lower_dict =
           Some (build_numerical_parzen_estimator lower_vals config dtype_
                   (bool_decide (class_name config = "OrdinalHyperparameter"))
                   (_min_bandwidth_factor self)) ∧
         dict_get hp_name pe_upper_dict =
           Some (build_numerical_parzen_estimator upper_vals config dtype_
                   (bool_decide (class_name config = "OrdinalHyperparameter"))
                   (_min_bandwidth_factor self))).
Proof.
  intros Hwf.
  destruct (wf_NoDup_parts _ Hwf) as (Hnd_hp & _).
  destruct (_update_parzen_estimators_Ok self (wf_wf_space _ Hwf) Hnd_hp)
    as (lo & up & Hrun & Hklo & Hkup & Hget).
  { intros hp_name Hhp.
    apply (wf_sorted_observations _ Hwf), elem_of_columns. auto. }
  exists lo, up. split_and!; [done..|].
  intros hp_name config sorted Hconfig Hsorted. cbv zeta.
  destruct (Hget _ _ _ Hconfig Hsorted) as [Hlo Hup].
  unfold build_for in Hlo, Hup. split_and!.
  - intros Hnn. unfold py_slice_to, py_slice_from, py_slice_bound.
    destruct (Z.ltb_spec (_n_lower self) 0); [lia|]. done.
  - intros ->. unfold py_slice_to, py_slice_from, py_slice_bound. simpl.
    by rewrite take_0, drop_0.
  - intros Hcat. by rewrite bool_decide_eq_true_2 in Hlo, Hup by done.
  - intros Hcat. rewrite bool_decide_eq_false_2 in Hlo, Hup by done.
    destruct (wf_config2type _ (wf_wf_space _ Hwf) _ _ Hconfig Hcat)
      as [dtype_ Hdt].
    rewrite Hdt in Hlo, Hup. simpl in Hlo, Hup. eauto.
Qed.


(** What [update_observations] does to the sorted view: the sorted column of
    every dimension and objective is its store column indexed by the new
    ranking; the sorted column of the runtime is not touched, while the
    runtime column of the store grows. *)
Lemma update_observations_sorted_view
    self n eval_config results results0 runtime percentile_func :
  wf self → aligned self n →
  (∀ hp_name, hp_name ∈ _hp_names self → is_Some (eval_config !! hp_name)) →
  results !! 0%nat = Some results0 →
  (∀ objective_name, objective_name ∈ _objective_names self →
     is_Some (results0 !! objective_name)) →
  ∃ self' order,
    update_observations eval_config results runtime percentile_func self
      = (Ok tt, self') ∧
    _order self' = Some order ∧
    (∀ name, name ∈ _hp_names self ∨ name ∈ _objective_names self →
       ∃ col sorted,
         _observations self' !! name = Some col ∧
         _sorted_observations self' !! name = Some sorted ∧
         length sorted = length col ∧
         ∀ i x, order !! i = Some x → sorted !! i = col !! x) ∧
    _sorted_observations self' !! _runtime_name self
      = _sorted_observations self !! _runtime_name self ∧
    ∃ rt, _observations self !! _runtime_name self = Some rt ∧
          _observations self' !! _runtime_name self = Some (rt ++ [runtime]).
Proof.
  intros Hwf Hal Hcfg Hr Hres.
  destruct (update_observations_spec self n eval_config results results0
              runtime percentile_func Hwf Hal Hcfg Hr Hres)
    as (col0 & v0 & rt & obs' & sorted' & lo & up & Hspec).
  cbv zeta in Hspec.
  destruct Hspec as (_ & _ & _ & Hrt & Happ & Hcols & _ & Hrun).
  destruct (wf_NoDup_parts _ Hwf) as (_ & _ & _ & Hrt_hp & Hrt_obj).
  eexists. exists (argsort (np_append col0 v0)).
  split; [exact Hrun|]. simpl. split_and!.
  - done.
  - intros name Hname.
    destruct (Hcols name Hname) as (col & sorted & Hc & Hs & Hlc & Hls & Hidx).
    exists col, sorted. split_and!; [|done| |done].
    + rewrite lookup_insert_ne; [done|]. intros <-. tauto.
    + lia.
  - by apply (appended_other _ _ _ _ _ _ Happ).
  - exists rt. by rewrite lookup_insert_eq.
Qed.

(** C6. A seed call on a store in which some objective column already has
    data, or with an input that lacks some objective, raises the
    precondition error ([ValueError]) and leaves the instance, hence every
    column of the store and of the sorted view, as it was. *)
Theorem apply_knowledge_augmentation_all_or_nothing
    self observations percentile_func :
  wf self →
  has_data self ∨ misses_objective self observations →
  apply_knowledge_augmentation observations percentile_func self
    = (Raise ValueError, self).
Proof.
  intros Hwf Hpre. rewrite apply_knowledge_augmentation_guards by done.
  destruct Hpre as [Hd|Hm].
  - apply has_data_b_spec in Hd. by rewrite Hd.
  - apply misses_objective_b_spec in Hm. rewrite Hm.
    by rewrite orb_true_r.
Qed.

(** C8. With no observation the percentile cut is not defaulted: a seed call
    whose primary objective column is empty raises [ZeroDivisionError] and
    leaves [_percentile] as it was; more generally the two lines that both
    mutators run to set the group boundary raise [ZeroDivisionError]
    whenever the primary objective column is empty, whatever percentile
    function is used. *)
Theorem percentile_cut_of_empty_history_faults
    self observations percentile_func :
  wf self →
  (_observations self !! _objective_name self = Some [] →
   ∃ self',
     set_group_boundary percentile_func self
       = (Raise ZeroDivisionError, self') ∧
     _percentile self' = _percentile self) ∧
  (¬ has_data self → ¬ misses_objective self observations →
   observations !! _objective_name self = Some [] →
   ∃ self',
     apply_knowledge_augmentation observations percentile_func self
       = (Raise ZeroDivisionError, self') ∧
     _percentile self' = _percentile self).
Proof.
  intros Hwf. split.
  - intros Hcol. eexists. split.
    + apply set_group_boundary_empty; [apply Hwf|done].
    + done.
  - intros Hnd Hnm Hcol0.
    destruct (apply_knowledge_augmentation_outcome observations
                percentile_func self [] Hwf Hnd Hnm Hcol0)
      as [[Hnr _]|[(_ & _ & Hrun)|(_ & Hne & _)]].
    + destruct Hnr. apply rankable_length. intros ? ? _. simpl. lia.
    + eexists. split; [exact Hrun|done].
    + done.
Qed.

Lemma rankable_inv observations col0 name vals :
  rankable observations col0 → observations !! name = Some vals →
  (length col0 ≤ length vals)%nat.
Proof.
  intros Hrank Hvals. destruct (decide (length col0 = 0%nat)) as [->|Hne]; [lia|].
  specialize (Hrank _ _ Hvals). simpl in Hrank.
  apply mapM_is_Some_1 in Hrank. rewrite Forall_forall in Hrank.
  assert (Hin : (length col0 - 1)%nat ∈ argsort col0).
  { rewrite argsort_perm. apply elem_of_seq. lia. }
  apply Hrank in Hin. simpl in Hin. apply lookup_lt_is_Some in Hin. lia.
Qed.

Lemma not_rankable_short observations col0 :
  ¬ rankable observations col0 →
  ∃ name vals, observations !! name = Some vals ∧
               (length vals < length col0)%nat.
Proof.
  intros Hnr. apply map_not_Forall in Hnr; [|apply _].
  destruct Hnr as (name & vals & Hvals & Hnone).
  exists name, vals. split; [done|].
  destruct (decide (length vals < length col0)%nat) as [|Hge]; [done|].
  destruct Hnone. apply np_take_is_Some. intros x Hx.
  rewrite argsort_perm in Hx. apply elem_of_seq in Hx. lia.
Qed.


(** *** A sequence of calls on one instance *)

(** The columns stay aligned along every sequence of [update_observations]
    calls. *)
Lemma replay_appends_aligned calls : ∀ self n,
  wf self → aligned self n →
  Forall (covering_append self) calls →
  Forall (λ r, r = Ok out_none) (replay calls self).1 ∧
  wf (replay calls self).2 ∧
  aligned (replay calls self).2 (n + length calls).
Proof.
  induction calls as [|c calls IH]; intros self n Hwf Hal Hcalls.
  - simpl. rewrite Nat.add_0_r. by split_and!.
  - apply Forall_cons in Hcalls as [Hc Hcalls].
    destruct c as [| eval_config results runtime percentile_func | |];
      try done.
    destruct Hc as (Hcfg & results0 & Hr & Hres).
    destruct (update_observations_spec self n eval_config results results0
                runtime percentile_func Hwf Hal Hcfg Hr Hres)
      as (? & ? & ? & ? & ? & ? & ? & Hspec).
    cbv zeta in Hspec. destruct Hspec as (_ & _ & _ & _ & _ & _ & _ & Hrun).
    destruct (update_observations_wf self n _ _ _ _ _ _ Hwf Hal Hcfg Hr Hres Hrun)
      as (Hwf' & Hal' & Hhp & Hobj).
    simpl. erewrite bind_Ok; [|exact Hrun]. simpl.
    match goal with
    | |- context [replay calls ?s] =>
        destruct (IH s (S n) Hwf' Hal') as (Hrs & Hwf'' & Hal'');
        [|destruct (replay calls s) as [rs self'']]
    end.
    + eapply Forall_impl; [exact Hcalls|]. intros c Hc.
      by destruct c.
    + simpl in *. split_and!; [by constructor|done|].
      by replace (n + S (length calls))%nat with (S n + length calls)%nat by lia.
Qed.

(** After a seed call that returned, every further seed call is rejected and
    changes nothing. *)
Lemma apply_knowledge_augmentation_twice
    self observations percentile_func self' observations' percentile_func' :
  wf self →
  apply_knowledge_augmentation observations percentile_func self
    = (Ok tt, self') →
  apply_knowledge_augmentation observations' percentile_func' self'
    = (Raise ValueError, self').
Proof.
  intros Hwf Hrun.
  pose proof (apply_knowledge_augmentation_guards observations
                percentile_func self Hwf) as Hguards.
  destruct (has_data_b self) eqn:Hd; [simpl in Hguards; congruence|].
  destruct (misses_objective_b self observations) eqn:Hm;
    [simpl in Hguards; congruence|].
  clear Hguards.
  assert (Hnd : ¬ has_data self).
  { intros ?%has_data_b_spec. congruence. }
  assert (Hnm : ¬ misses_objective self observations).
  { intros ?%misses_objective_b_spec. congruence. }
  destruct (observations !! _objective_name self) as [col0|] eqn:Hcol0.
  2:{ destruct Hnm. exists (_objective_name self).
      split; [by apply wf_objective_name_elem_of|done]. }
  destruct (apply_knowledge_augmentation_outcome observations
              percentile_func self col0 Hwf Hnd Hnm Hcol0)
    as [[_ Hrun']|[(_ & _ & Hrun')|(_ & Hne & lo & up & _ & Hrun')]];
    [congruence..|].
  rewrite Hrun' in Hrun. injection Hrun as <-.
  apply apply_knowledge_augmentation_rejects.
  - split.
    + destruct (wf_wf_space _ Hwf). by split.
    + exact (wf_objective_name _ Hwf).
    + exact (wf_columns _ Hwf).
    + intros name Hname. simpl. apply lookup_union_is_Some. right.
      by apply (wf_observations _ Hwf).
    + intros name Hname. simpl. apply lookup_union_is_Some. right.
      by apply (wf_sorted_observations _ Hwf).
  - left. exists (_objective_name self), col0. split_and!; [|simpl|done].
    + exact (wf_objective_name_elem_of _ Hwf).
    + by apply lookup_union_Some_l.
Qed.


End Properties.

(** * The collaborators used on concrete inputs meet their contracts *)

Lemma rank_le_value ties_reversed p q :
  rank_le ties_reversed p q → (p.2 <= q.2)%Q.
Proof.
  unfold rank_le, rank_leb. intros Hle. apply Qle_alt.
  destruct (p.2 ?= q.2)%Q; congruence.
Qed.

#[export] Instance rank_le_total ties_reversed : Total (rank_le ties_reversed).
Proof.
  intros [i v] [j w]. unfold rank_le, rank_leb. simpl.
  rewrite <- (Qcompare_antisym v w).
  destruct (v ?= w)%Q; simpl; auto.
  destruct ties_reversed;
    [destruct (Nat.leb_spec j i), (Nat.leb_spec i j)
    |destruct (Nat.leb_spec i j), (Nat.leb_spec j i)]; auto; lia.
Qed.

#[export] Instance rank_le_trans ties_reversed :
  Transitive (rank_le ties_reversed).
Proof.
  intros [i u] [j v] [k w]. unfold rank_le, rank_leb. simpl.
  destruct (u ?= v)%Q eqn:Huv; try discriminate;
    destruct (v ?= w)%Q eqn:Hvw; try discriminate; intros H1 H2.
  - apply Qeq_alt in Huv, Hvw.
    assert (Huw : (u ?= w)%Q = Eq) by (apply Qeq_alt; by rewrite Huv).
    rewrite Huw. destruct ties_reversed.
    + apply Nat.leb_le in H1, H2. apply Nat.leb_le. lia.
    + apply Nat.leb_le in H1, H2. apply Nat.leb_le. lia.
  - apply Qeq_alt in Huv. apply Qlt_alt in Hvw.
    assert (Huw : (u ?= w)%Q = Lt) by (apply Qlt_alt; by rewrite Huv).
    by rewrite Huw.
  - apply Qlt_alt in Huv. apply Qeq_alt in Hvw.
    assert (Huw : (u ?= w)%Q = Lt) by (apply Qlt_alt; by rewrite <- Hvw).
    by rewrite Huw.
  - apply Qlt_alt in Huv, Hvw.
    assert (Huw : (u ?= w)%Q = Lt) by (apply Qlt_alt; by apply Qlt_trans with v).
    by rewrite Huw.
Qed.

Lemma StronglySorted_lookup {A : Type} (R : relation A) (l : list A) i j x y :
  StronglySorted R l → (i < j)%nat →
  l !! i = Some x → l !! j = Some y → R x y.
Proof.
  intros Hl. revert i j. induction Hl as [|z l Hl IH Hz]; intros i j Hij Hi Hj.
  - by rewrite lookup_nil in Hi.
  - destruct j as [|j]; [lia|]. simpl in Hj. destruct i as [|i].
    + simpl in Hi. injection Hi as ->.
      rewrite Forall_forall in Hz. apply Hz.
      apply list_elem_of_lookup. eauto.
    + simpl in Hi. apply (IH i j); [lia|done..].
Qed.

Lemma argsort_by_perm ties_reversed a :
  argsort_by ties_reversed a ≡ₚ seq 0 (length a).
Proof.
  unfold argsort_by. rewrite merge_sort_Permutation.
  rewrite fst_zip; [done|]. by rewrite length_seq.
Qed.

Lemma argsort_by_ascending ties_reversed a i j x y vx vy :
  (i < j)%nat →
  argsort_by ties_reversed a !! i = Some x →
  argsort_by ties_reversed a !! j = Some y →
  a !! x = Some vx → a !! y = Some vy →
  (vx <= vy)%Q.
Proof.
  unfold argsort_by. intros Hij Hi Hj Hx Hy.
  rewrite list_lookup_fmap in Hi, Hj.
  destruct (merge_sort _ _ !! i) as [[x' vx']|] eqn:Ei; [|done].
  destruct (merge_sort _ _ !! j) as [[y' vy']|] eqn:Ej; [|done].
  simpl in Hi, Hj. injection Hi as ->. injection Hj as ->.
  assert (Hin : ∀ k p w, merge_sort (rank_le ties_reversed)
                           (zip (seq 0 (length a)) a) !! k = Some (p, w) →
                         a !! p = Some w).
  { intros k p w Hk.
    assert (Hel : (p, w) ∈ zip (seq 0 (length a)) a).
    { rewrite <- (merge_sort_Permutation (rank_le ties_reversed)).
      apply list_elem_of_lookup. eauto. }
    apply list_elem_of_lookup in Hel as [m Hm].
    apply lookup_zip_with_Some in Hm as (p' & w' & [= <- <-] & Hp & Hw).
    apply lookup_seq in Hp as [-> _]. done. }
  pose proof (Hin _ _ _ Ei) as Hx'. pose proof (Hin _ _ _ Ej) as Hy'.
  assert (vx' = vx) as -> by congruence.
  assert (vy' = vy) as -> by congruence.
  apply (rank_le_value ties_reversed (x, vx) (y, vy)).
  eapply (StronglySorted_lookup _ _ i j); [|done..].
  apply StronglySorted_merge_sort; apply _.
Qed.

#[export] Instance numpy_with_laws ties_reversed :
  @NumPyLaws (numpy_with ties_reversed).
Proof.
  split.
  - apply argsort_by_perm.
  - apply argsort_by_ascending.
  - done.
Qed.

(** * The results on concrete inputs *)

Lemma example_tpe_wf ties_reversed quantile :
  wf (example_tpe ties_reversed quantile) ∧
  aligned (example_tpe ties_reversed quantile) 0.
Proof.
  unfold example_tpe.
  destruct (@TPE_init_wf example_constants (numpy_with ties_reversed)
              example_space 24 "loss" "runtime" (Some 7) 0
              (1 # 100) (8 # 10) None quantile) as (Hwf & Hal & _).
  - apply (bool_decide_unpack _). by vm_compute.
  - apply (bool_decide_unpack _). by vm_compute.
  - done.
Qed.

Lemma example_config_covers ties_reversed quantile hp_name :
  hp_name ∈ _hp_names (example_tpe ties_reversed quantile) →
  is_Some (example_config !! hp_name).
Proof.
  simpl. intros Hhp.
  repeat (apply elem_of_cons in Hhp as [->|Hhp]); [vm_compute; eauto..|].
  by apply elem_of_nil in Hhp.
Qed.

Lemma example_results_cover ties_reversed quantile loss objective_name :
  objective_name ∈ _objective_names (example_tpe ties_reversed quantile) →
  is_Some (({[ "loss" := loss ]} : gmap string Q) !! objective_name).
Proof.
  simpl. intros ->%list_elem_of_singleton. by rewrite lookup_singleton_eq.
Qed.



Lemma _update_parzen_estimators_dispatch_witness :
  ∃ pe_lower_dict pe_upper_dict,
    @_update_parzen_estimators example_constants (numpy_with false)
      (example_tpe false (15 # 100)) =
      (Ok tt,
       set_mvpe_upper (Some (MVPE pe_upper_dict))
         (set_mvpe_lower (Some (MVPE pe_lower_dict))
            (example_tpe false (15 # 100)))) ∧
    pe_lower_dict.*1 = ["x"; "c"] ∧ pe_upper_dict.*1 = ["x"; "c"].
Proof.
  destruct (example_tpe_wf false (15 # 100)) as [Hwf _].
  destruct (@_update_parzen_estimators_dispatch example_constants
              (numpy_with false) (example_tpe false (15 # 100)) Hwf)
    as (lo & up & Hrun & Hlo & Hup & _).
  by exists lo, up.
Defined.


Lemma apply_knowledge_augmentation_all_or_nothing_witness :
  @apply_knowledge_augmentation example_constants (numpy_with false)
    {[ "x" := [1 # 2] ]} None (example_tpe false (15 # 100)) =
  (Raise ValueError, example_tpe false (15 # 100)).
Proof.
  destruct (example_tpe_wf false (15 # 100)) as [Hwf _].
  apply (@apply_knowledge_augmentation_all_or_nothing example_constants
           (numpy_with false) (example_tpe false (15 # 100))
           {[ "x" := [1 # 2] ]} None Hwf).
  right. exists "loss". split; [by left|done].
Defined.

Lemma example_tpe_fresh ties_reversed quantile observations :
  is_Some (observations !! "loss") →
  ¬ has_data (example_tpe ties_reversed quantile) ∧
  ¬ misses_objective (example_tpe ties_reversed quantile) observations.
Proof.
  intros Hloss. split.
  - intros Hd%has_data_b_spec. by vm_compute in Hd.
  - intros (name & Hname & Hnone). simpl in Hname.
    apply list_elem_of_singleton in Hname as ->.
    rewrite Hnone in Hloss. by destruct Hloss.
Qed.

Lemma percentile_cut_of_empty_history_faults_witness :
  ∃ self',
    @apply_knowledge_augmentation example_constants (numpy_with false)
      {[ "loss" := [] ]} None (example_tpe false (15 # 100))
      = (Raise ZeroDivisionError, self').
Proof.
  destruct (example_tpe_wf false (15 # 100)) as [Hwf _].
  destruct (example_tpe_fresh false (15 # 100) {[ "loss" := [] ]})
    as [Hnd Hnm]; [by rewrite lookup_singleton_eq|].
  destruct (@percentile_cut_of_empty_history_faults example_constants
              (numpy_with false) (numpy_with_laws false) (example_tpe false (15 # 100))
              {[ "loss" := [] ]} None Hwf) as [_ Hseed].
  destruct (Hseed Hnd Hnm eq_refl) as (self' & Hrun & _).
  by exists self'.
Defined.




(** C5: after the first update of a fresh instance the runtime column of the
    store holds the runtime, while the runtime column of the sorted view is
    still empty. *)
Theorem update_observations_runtime_view_stale :
  let self' :=
    (@update_observations example_constants (numpy_with false)
       example_config (example_results 5) 3 None
       (example_tpe false (15 # 100))).2 in
  _observations self' !! "runtime" = Some [3%Q] ∧
  _sorted_observations self' !! "runtime" = Some [] ∧
  _order self' = Some [0%nat] ∧
  _sorted_observations self' !! "loss" = Some [5%Q].
Proof. by vm_compute. Qed.


(** With the sort that reverses equal values, two observations with the same
    loss appear in the sorted view against their insertion order. *)
Lemma example_ties_reordered_in_sorted_view :
  let self' :=
    (@update_observations example_constants (numpy_with true)
       {[ "x" := 1 # 3; "c" := 2%Q ]} (example_results 5) 4 None
       (@update_observations example_constants (numpy_with true)
          example_config (example_results 5) 3 None
          (example_tpe true (15 # 100))).2).2 in
  _observations self' !! "x" = Some [1 # 2; 1 # 3] ∧
  _order self' = Some [1%nat; 0%nat] ∧
  _sorted_observations self' !! "x" = Some [1 # 3; 1 # 2].
Proof. by vm_compute. Qed.

(** Seeding with a dimension column shorter than the objective column stores
    the input and then raises [IndexError]. *)
Lemma example_seed_short_column :
  let '(r, self') :=
    @apply_knowledge_augmentation example_constants (numpy_with false)
      {[ "loss" := [3; 1]%Q; "x" := [1 # 2] ]} None
      (example_tpe false (15 # 100)) in
  r = Raise IndexError ∧
  _observations self' !! "loss" = Some [3; 1]%Q ∧
  _sorted_observations self' !! "loss" = Some [].
Proof. by vm_compute. Qed.
